(** * qlive: handlers, token lookup and the room life cycle

    A shallow embedding of the Go packages [errors], [controller] and
    [handler] of qlive.  Go strings are byte strings and are modelled by
    [string] (a list of 8-bit characters); Go [int] values that occur here
    are small constants and are modelled by [Z]; Go maps are [gmap]s.
    Logging through [xlog] has no effect on any result and is left out. *)

From Stdlib Require Import ZArith Ascii String List Lia.
From stdpp Require Import gmap strings list fin_maps.

Local Open Scope Z_scope.
Local Open Scope string_scope.

(* ===================================================================== *)
(** ** Package [errors] *)
(* ===================================================================== *)

Module errors.

(** The constant block of the web-socket error codes. *)
Definition WSErrorOK : Z := 0.
Definition WSErrorUnknownMessage : Z := 10001.
Definition WSErrorTokenInvalid : Z := 10002.
Definition WSErrorNoPermission : Z := 10003.
Definition WSErrorRoomNoExist : Z := 10011.
Definition WSErrorRoomInPK : Z := 10012.
Definition WSErrorRoomNotInPK : Z := 10013.

(** [var WSErrorToString = map[int]string{...}] *)
Definition WSErrorToString : gmap Z string :=
  <[WSErrorOK := ""]>
  (<[WSErrorUnknownMessage := "unknown message"]>
  (<[WSErrorTokenInvalid := "token invalid"]>
  (<[WSErrorNoPermission := "no permission"]>
  (<[WSErrorRoomNoExist := "room no exist"]>
  (<[WSErrorRoomInPK := "room in PK"]>
  (<[WSErrorRoomNotInPK := "room not in PK"]> ∅)))))).

(** [type WSError struct { s string }] with its [Error] method and its
    constructor. *)
Record WSError := { s : string }.
Definition WSError_Error (e : WSError) : string := s e.
Definition NewWSError (errString : string) : WSError := {| s := errString |}.

(** Modelled from the spec: the declaration of [ServerError] and of its
    code constants is not among the sources; the handlers only compare
    [serverErr.Code] with named constants.  The codes the handlers name
    ([ServerErrorRoomNameUsed], [ServerErrorTooManyRooms],
    [ServerErrorRoomNotFound], [ServerErrorSMSSendTooFrequent],
    [ServerErrorUserLoggedin]) and the spec's [NoPermission] are taken as
    pairwise distinct constants; every other code is [ServerErrorOther]. *)
Inductive ServerErrorCode :=
| ServerErrorRoomNameUsed
| ServerErrorTooManyRooms
| ServerErrorRoomNotFound
| ServerErrorNoPermission
| ServerErrorSMSSendTooFrequent
| ServerErrorUserLoggedin
| ServerErrorOther (n : Z).

Record ServerError := { Code : ServerErrorCode; Summary : string }.

(** A Go [error] value as the handlers see it: the type assertion of
    [err] to a pointer to [ServerError] succeeds on [IsServerError]
    only.  A nil pointer to [ServerError] held in an [error] is not among
    these values; module [typed_nil] adds it and has the handlers that
    read the code of the error once more. *)
Inductive error :=
| IsServerError (e : ServerError)
| OtherError (msg : string).

(** Modelled from the spec: the [HTTPError] constructors
    ([NewHTTPErrorBadRequest], ...) are not among the sources.  An
    [HTTPError] is kept as the constructor that built it together with
    what [WithRequestID] and [WithMessage] stored in it. *)
Inductive HTTPErrorKind :=
| BadRequest | InvalidRoomName | Internal | RoomNameused | TooManyRooms
| NoSuchRoom | InvalidPhoneNumber | SMSSendTooFrequent | NotLoggedIn.

Record HTTPError := {
  Kind : HTTPErrorKind;
  RequestID : string;
  Message : option string
}.

Definition NewHTTPError (k : HTTPErrorKind) : HTTPError :=
  {| Kind := k; RequestID := ""; Message := None |}.
Definition WithRequestID (rid : string) (e : HTTPError) : HTTPError :=
  {| Kind := Kind e; RequestID := rid; Message := Message e |}.
Definition WithMessage (m : string) (e : HTTPError) : HTTPError :=
  {| Kind := Kind e; RequestID := RequestID e; Message := Some m |}.

End errors.

(* ===================================================================== *)
(** ** Package [net/http]: the status constants the handlers use *)
(* ===================================================================== *)

Module http.
Definition StatusOK : Z := 200.
Definition StatusBadRequest : Z := 400.
Definition StatusUnauthorized : Z := 401.
Definition StatusForbidden : Z := 403.
Definition StatusNotFound : Z := 404.
Definition StatusConflict : Z := 409.
Definition StatusTooManyRequests : Z := 429.
Definition StatusInternalServerError : Z := 500.
Definition StatusServiceUnavailable : Z := 503.
End http.

(* ===================================================================== *)
(** ** Package [protocol] *)
(* ===================================================================== *)

Module protocol.

(** Modelled from the spec: the declarations of package [protocol] are
    not among the sources.  The fields are those the handlers and the
    controller read or write; [Status] ranges over the four states of the
    spec's data model and [PartnerRoomID] is its optional partner field,
    which the handlers leave at its zero value. *)
Inductive LiveRoomStatus :=
| LiveRoomStatusSingle
| LiveRoomStatusPKInviting
| LiveRoomStatusPKConnected
| LiveRoomStatusClosed.

Record LiveRoom := {
  ID : string;
  Name : string;
  Creator : string;
  PlayURL : string;
  RTCRoom : string;
  Status : LiveRoomStatus;
  PartnerRoomID : option string
}.

Record GetRoomResponse := { Resp_ID : string; Resp_Name : string }.
Record ListRoomsResponse := { Rooms : list GetRoomResponse }.

Record CreateRoomArgs := { RoomName : string }.
Record CloseRoomArgs := { RoomID : string }.

Record CreateRoomResponse := {
  Created_RoomID : string;
  Created_RoomName : string;
  Created_RTCRoom : string;
  RTCRoomToken : string
}.

(** Modelled from the spec: an active-session record, [ActiveUser] in the
    code.  The controller reads its [ID] field, [User_ID] here, and
    filters on its [token] field. *)
Record ActiveUser := {
  User_ID : string;
  Token : string;
  IssuedAt : Z
}.

#[global] Instance LiveRoomStatus_eq_dec : EqDecision LiveRoomStatus.
Proof. solve_decision. Defined.

End protocol.

(* ===================================================================== *)
(** ** Package [regexp]: the fragment the account handler compiles *)
(* ===================================================================== *)

Module regexp.

(** The syntax needed for the pattern of the account handler: a literal
    byte, a class [lo-hi], concatenation and the counted repetition
    [r{n}]. *)
Inductive Regexp :=
| Lit (c : ascii)
| Class (lo hi : ascii)
| Concat (r1 r2 : Regexp)
| Repeat (r : Regexp) (n : nat).

Definition in_class (lo hi c : ascii) : bool :=
  (nat_of_ascii lo <=? nat_of_ascii c)%nat && (nat_of_ascii c <=? nat_of_ascii hi)%nat.

(** [match_prefix r s] lists what is left of [s] after each way of matching
    [r] at the very start of [s]. *)
Fixpoint match_prefix (r : Regexp) (s : string) : list string :=
  match r with
  | Lit c =>
      match s with
      | String a rest => if Ascii.eqb a c then [rest] else []
      | EmptyString => []
      end
  | Class lo hi =>
      match s with
      | String a rest => if in_class lo hi a then [rest] else []
      | EmptyString => []
      end
  | Concat r1 r2 => flat_map (match_prefix r2) (match_prefix r1 s)
  | Repeat r n => Nat.iter n (flat_map (match_prefix r)) [s]
  end.

Definition matches_here (r : Regexp) (s : string) : bool :=
  match match_prefix r s with
  | [] => false
  | _ :: _ => true
  end.

(** [MatchString] reports whether the string contains any match of the
    pattern: the search is not anchored, it tries every start position. *)
Fixpoint MatchString (r : Regexp) (s : string) : bool :=
  matches_here r s ||
  match s with
  | EmptyString => false
  | String _ rest => MatchString r rest
  end.

(** The language of a pattern: the strings it matches from their first to
    their last byte. *)
Inductive matches : Regexp -> string -> Prop :=
| matches_Lit (c : ascii) : matches (Lit c) (String c "")
| matches_Class (lo hi a : ascii) :
    in_class lo hi a = true -> matches (Class lo hi) (String a "")
| matches_Concat (r1 r2 : Regexp) (m1 m2 : string) :
    matches r1 m1 -> matches r2 m2 -> matches (Concat r1 r2) (m1 +:+ m2)
| matches_Repeat_O (r : Regexp) : matches (Repeat r 0) ""
| matches_Repeat_S (r : Regexp) (n : nat) (m1 m2 : string) :
    matches (Repeat r n) m1 -> matches r m2 -> matches (Repeat r (S n)) (m1 +:+ m2).

End regexp.

(* ===================================================================== *)
(** ** Package [gin]: the request context as the handlers use it *)
(* ===================================================================== *)

Module gin.

(** A value stored in the context's key map ([interface{}] in Go). *)
Inductive Value :=
| VString (s : string)
| VOther (n : Z).

(** The request side of a [gin.Context].  [ReqId] is the request ID of the
    logger the middleware stored under [protocol.XLogKey]; [UserID] is the
    entry of the key map under [protocol.UserIDContextKey], absent before
    authentication; [Query] holds the URL query parameters.  The two
    [Bind_] fields are the outcome of [c.BindJSON] into the argument type
    of the handler that asks for it, [None] when it reports an error. *)
Record Context := {
  ReqId : string;
  UserID : option Value;
  Query : gmap string string;
  Bind_CreateRoomArgs : option protocol.CreateRoomArgs;
  Bind_CloseRoomArgs : option protocol.CloseRoomArgs
}.

(** [c.Get(protocol.UserIDContextKey)]: the value and whether it exists. *)
Definition Get_UserID (c : Context) : option Value * bool :=
  match UserID c with
  | Some v => (Some v, true)
  | None => (None, false)
  end.

(** [c.GetString(protocol.UserIDContextKey)]: the stored string, or the
    empty string when the key is absent or holds another type. *)
Definition GetString_UserID (c : Context) : string :=
  match UserID c with
  | Some (VString s) => s
  | _ => ""
  end.

(** [c.GetQuery(key)] and [c.Query(key)]. *)
Definition GetQuery (c : Context) (key : string) : string * bool :=
  match Query c !! key with
  | Some v => (v, true)
  | None => ("", false)
  end.

Definition Query_ (c : Context) (key : string) : string := fst (GetQuery c key).

(** What [c.JSON] serialises. *)
Inductive Body :=
| BodyHTTPError (e : errors.HTTPError)
| BodyError (e : errors.error)
| BodyString (s : string)
| BodyCreateRoomResponse (r : protocol.CreateRoomResponse)
| BodyListRoomsResponse (r : protocol.ListRoomsResponse).

(** What a handler does that is visible outside it, in program order:
    writes to the response and calls to the injected interfaces. *)
Inductive Event :=
| EvJSON (status : Z) (body : Body)
| EvSetCookieLoginToken (value : string) (maxAge : Z)
| EvRoomCreateRoom (room : protocol.LiveRoom)
| EvRoomListAllRooms
| EvRoomListPKRooms (userID : string)
| EvRoomCloseRoom (userID roomID : string)
| EvSMSSend (phoneNumber : string)
| EvAccountLogout (id : string).

(** How the handler's goroutine ends. *)
Inductive Outcome :=
| Returned
| Panicked (reason : string).

End gin.

(* ===================================================================== *)
(** ** Package [handler] *)
(* ===================================================================== *)

Module handler.
Import errors protocol gin.

(** The injected interfaces.  They act on the state [St] of everything
    outside the handler (stores, gateways, the process-wide random source):
    a call takes the state and gives back its results and the new state.
    A Go [error] result is [None] for [nil].  Of [AccountInterface] and
    [SMSCodeInterface] only the methods called by the handlers below are
    declared. *)
Class AccountInterface (St : Type) := {
  AccountLogout : string -> St -> option error * St
}.

Class SMSCodeInterface (St : Type) := {
  Send : string -> St -> option error * St
}.

Class RoomInterface (St : Type) := {
  Room_CreateRoom : LiveRoom -> St -> option error * St;
  Room_ListAllRooms : St -> (list LiveRoom * option error) * St;
  Room_ListPKRooms : string -> St -> (list LiveRoom * option error) * St;
  Room_CloseRoom : string -> string -> St -> option error * St
}.

(** [math/rand]: [Intn n] draws from the process-wide source. *)
Class RandSource (St : Type) := {
  Intn : nat -> St -> nat * St
}.

(** The result of running a handler: the state it leaves, what it did, in
    order, and how it ended. *)
Record Run (St : Type) := mkRun {
  state : St;
  events : list Event;
  outcome : Outcome
}.
Arguments mkRun {St} _ _ _.
Arguments state {St} _.
Arguments events {St} _.
Arguments outcome {St} _.

(** The response writes among the events: what reaches the caller. *)
Definition is_write (e : Event) : bool :=
  match e with
  | EvJSON _ _ => true
  | _ => false
  end.

Definition written {St} (r : Run St) : list Event := List.filter is_write (events r).

(** *** account.go *)

Definition phoneNumberRegExp : regexp.Regexp :=
  regexp.Concat (regexp.Lit "1")
    (regexp.Concat (regexp.Class "3" "9")
       (regexp.Repeat (regexp.Class "0" "9") 9)).

Definition validatePhoneNumber (phoneNumber : string) : bool :=
  regexp.MatchString phoneNumberRegExp phoneNumber.

(** A well-formed mobile number, in the words of the spec's reader: eleven
    bytes, a 1, then a digit from 3 to 9, then nine digits. *)
Definition well_formed_mobile (s : string) : bool :=
  match list_ascii_of_string s with
  | c1 :: c2 :: rest =>
      Ascii.eqb c1 "1" && regexp.in_class "3" "9" c2 &&
      forallb (regexp.in_class "0" "9") rest && (length rest =? 9)%nat
  | _ => false
  end.

Section AccountHandler.
Context {St : Type} `{AccountInterface St} `{SMSCodeInterface St}.

Definition SendSMSCode (c : Context) (st : St) : Run St :=
  let requestID := ReqId c in
  let '(phoneNumber, ok) := GetQuery c "phone_number" in
  if negb ok then
    let httpErr := WithMessage "empty phone number"
                     (WithRequestID requestID (NewHTTPError InvalidPhoneNumber)) in
    mkRun st [EvJSON http.StatusBadRequest (BodyHTTPError httpErr)] Returned
  else if negb (validatePhoneNumber phoneNumber) then
    let httpErr := WithMessage "invalid phone number"
                     (WithRequestID requestID (NewHTTPError InvalidPhoneNumber)) in
    mkRun st [EvJSON http.StatusBadRequest (BodyHTTPError httpErr)] Returned
  else
    let '(err, st1) := Send phoneNumber st in
    match err with
    | Some e =>
        match e with
        | IsServerError {| Code := ServerErrorSMSSendTooFrequent |} =>
            let httpErr := WithRequestID requestID (NewHTTPError SMSSendTooFrequent) in
            mkRun st1 [EvSMSSend phoneNumber;
                       EvJSON http.StatusTooManyRequests (BodyHTTPError httpErr)] Returned
        | _ =>
            mkRun st1 [EvSMSSend phoneNumber;
                       EvJSON http.StatusInternalServerError (BodyError e)] Returned
        end
    | None =>
        mkRun st1 [EvSMSSend phoneNumber; EvJSON http.StatusOK (BodyString "")] Returned
    end.

(** [Logout]: the branch for a missing ID writes its answer and falls
    through (it has no [return]); the type assertion [id.(string)] that
    follows panics unless the stored value is a string. *)
Definition Logout (c : Context) (st : St) : Run St :=
  let requestID := ReqId c in
  let '(id, exist') := Get_UserID c in
  let ev0 :=
    if negb exist' then
      let httpErr := WithRequestID requestID (NewHTTPError NotLoggedIn) in
      [EvJSON http.StatusUnauthorized (BodyHTTPError httpErr)]
    else [] in
  match id with
  | Some (VString sid) =>
      let '(err, st1) := AccountLogout sid st in
      let ev1 :=
        match err with
        | Some _ => [EvJSON http.StatusUnauthorized (BodyString "")]
        | None => []
        end in
      mkRun st1
        (ev0 ++ [EvAccountLogout sid] ++ ev1 ++
         [EvSetCookieLoginToken "" (-1); EvJSON http.StatusOK (BodyString "")])
        Returned
  | _ =>
      mkRun st ev0 (Panicked "interface conversion: interface {} is not string")
  end.

End AccountHandler.

(** *** room.go *)

Record RoomHandler := {
  LiveHost : string;
  LiveHub : string
}.

Definition validateRoomName (roomName : string) : bool :=
  let roomNameMaxLength := 100%nat in
  if (String.length roomName =? 0)%nat || (roomNameMaxLength <? String.length roomName)%nat
  then false
  else true.

Definition generatePlayURL (h : RoomHandler) (roomID : string) : string :=
  "rtmp://" +:+ LiveHost h +:+ "/" +:+ LiveHub h +:+ "/" +:+ roomID.

Definition generateRTCRoomToken (roomID : string) : string := "".

Definition alphaNum : string := "0123456789abcdefghijklmnopqrstuvwxyz".

(** The room that [CreateRoom] builds around a generated ID. *)
Definition room_built (h : RoomHandler) (c : Context) (args : CreateRoomArgs)
    (roomID : string) : LiveRoom :=
  {| ID := roomID;
     Name := RoomName args;
     Creator := GetString_UserID c;
     PlayURL := generatePlayURL h roomID;
     RTCRoom := roomID;
     Status := LiveRoomStatusSingle;
     PartnerRoomID := None |}.

(** The status codes written to the response, in order. *)
Definition statuses {St} (r : Run St) : list Z :=
  omap (fun e => match e with EvJSON status _ => Some status | _ => None end) (events r).

Section RoomHandler.
Context {St : Type} `{RoomInterface St} `{RandSource St}.

(** The loop of [generateRoomID], [n] iterations to go.  Indexing
    [alphaNum] out of range panics: [None]. *)
Fixpoint generateRoomID_loop (n : nat) (roomID : string) (st : St) : option string * St :=
  match n with
  | O => (Some roomID, st)
  | S n' =>
      let '(index, st1) := Intn (String.length alphaNum) st in
      match String.get index alphaNum with
      | Some ch => generateRoomID_loop n' (roomID +:+ String ch "") st1
      | None => (None, st1)
      end
  end.

Definition generateRoomID (st : St) : option string * St :=
  let idLength := 16%nat in
  generateRoomID_loop idLength "" st.

(** [ListAllRooms] has an empty body. *)
Definition ListAllRooms (h : RoomHandler) (c : Context) (st : St) : Run St :=
  mkRun st [] Returned.

(** [ListCanPKRooms] builds [resp] and ends: nothing is written. *)
Definition ListCanPKRooms (h : RoomHandler) (c : Context) (st : St) : Run St :=
  let userID := GetString_UserID c in
  let '(rooms, err, st1) := Room_ListPKRooms userID st in
  let resp :=
    fold_left
      (fun resp room =>
         {| Rooms := Rooms resp ++ [{| Resp_ID := ID room; Resp_Name := Name room |}] |})
      rooms {| Rooms := [] |} in
  mkRun st1 [EvRoomListPKRooms userID] Returned.

Definition ListRooms (h : RoomHandler) (c : Context) (st : St) : Run St :=
  if String.eqb (Query_ c "can_pk") "true" then ListCanPKRooms h c st
  else ListAllRooms h c st.

Definition CreateRoom (h : RoomHandler) (c : Context) (st : St) : Run St :=
  let requestID := ReqId c in
  let userID := GetString_UserID c in
  match Bind_CreateRoomArgs c with
  | None =>
      let httpErr := WithMessage "invalid args in request body"
                       (WithRequestID requestID (NewHTTPError BadRequest)) in
      mkRun st [EvJSON http.StatusBadRequest (BodyHTTPError httpErr)] Returned
  | Some args =>
      if negb (validateRoomName (RoomName args)) then
        let httpErr := WithMessage ("invalid room name " +:+ RoomName args)
                         (WithRequestID requestID (NewHTTPError InvalidRoomName)) in
        mkRun st [EvJSON http.StatusBadRequest (BodyHTTPError httpErr)] Returned
      else
        match generateRoomID st with
        | (None, st1) => mkRun st1 [] (Panicked "index out of range")
        | (Some roomID, st1) =>
            let room := {| ID := roomID;
                           Name := RoomName args;
                           Creator := userID;
                           PlayURL := generatePlayURL h roomID;
                           RTCRoom := roomID;
                           Status := LiveRoomStatusSingle;
                           PartnerRoomID := None |} in
            let '(err, st2) := Room_CreateRoom room st1 in
            match err with
            | Some (OtherError _) =>
                let httpErr := WithRequestID requestID (NewHTTPError Internal) in
                mkRun st2 [EvRoomCreateRoom room;
                           EvJSON http.StatusInternalServerError (BodyHTTPError httpErr)]
                      Returned
            | Some (IsServerError serverErr) =>
                match Code serverErr with
                | ServerErrorRoomNameUsed =>
                    let httpErr := WithRequestID requestID (NewHTTPError RoomNameused) in
                    mkRun st2 [EvRoomCreateRoom room;
                               EvJSON http.StatusConflict (BodyHTTPError httpErr)] Returned
                | ServerErrorTooManyRooms =>
                    let httpErr := WithRequestID requestID (NewHTTPError TooManyRooms) in
                    mkRun st2 [EvRoomCreateRoom room;
                               EvJSON http.StatusServiceUnavailable (BodyHTTPError httpErr)]
                          Returned
                | _ =>
                    let httpErr := WithRequestID requestID (NewHTTPError Internal) in
                    mkRun st2 [EvRoomCreateRoom room;
                               EvJSON http.StatusInternalServerError (BodyHTTPError httpErr)]
                          Returned
                end
            | None =>
                let resp := {| Created_RoomID := roomID;
                               Created_RoomName := RoomName args;
                               Created_RTCRoom := roomID;
                               RTCRoomToken := generateRTCRoomToken roomID |} in
                mkRun st2 [EvRoomCreateRoom room;
                           EvJSON http.StatusOK (BodyCreateRoomResponse resp)] Returned
            end
        end
  end.

(** [CloseRoom]: on success nothing is written. *)
Definition CloseRoom (h : RoomHandler) (c : Context) (st : St) : Run St :=
  let requestID := ReqId c in
  let userID := GetString_UserID c in
  match Bind_CloseRoomArgs c with
  | None =>
      let httpErr := WithMessage "invalid args in request body"
                       (WithRequestID requestID (NewHTTPError BadRequest)) in
      mkRun st [EvJSON http.StatusBadRequest (BodyHTTPError httpErr)] Returned
  | Some args =>
      let '(err, st1) := Room_CloseRoom userID (RoomID args) st in
      match err with
      | Some (OtherError _) =>
          let httpErr := WithRequestID requestID (NewHTTPError Internal) in
          mkRun st1 [EvRoomCloseRoom userID (RoomID args);
                     EvJSON http.StatusInternalServerError (BodyHTTPError httpErr)] Returned
      | Some (IsServerError serverErr) =>
          match Code serverErr with
          | ServerErrorRoomNotFound =>
              let httpErr := WithRequestID requestID (NewHTTPError NoSuchRoom) in
              mkRun st1 [EvRoomCloseRoom userID (RoomID args);
                         EvJSON http.StatusNotFound (BodyHTTPError httpErr)] Returned
          | _ =>
              let httpErr := WithRequestID requestID (NewHTTPError Internal) in
              mkRun st1 [EvRoomCloseRoom userID (RoomID args);
                         EvJSON http.StatusInternalServerError (BodyHTTPError httpErr)] Returned
          end
      | None => mkRun st1 [EvRoomCloseRoom userID (RoomID args)] Returned
      end
  end.

End RoomHandler.

End handler.

(* ===================================================================== *)
(** ** Package [controller] *)
(* ===================================================================== *)

Module qmgo.
Import protocol.

(** The errors of a query: no document matched, or the driver failed. *)
Inductive Error :=
| ErrNoDocuments
| DriverError (msg : string).

Definition IsErrNoDocuments (e : Error) : bool :=
  match e with
  | ErrNoDocuments => true
  | DriverError _ => false
  end.

(** The collection of active users: the documents it holds.  The list is
    a container only; the query below is not asked for any order. *)
Definition Collection := list ActiveUser.

(** [coll.Find(ctx, {"token": token}).One(result)], as the caller sees it:
    the answers the query can give on a collection.  It decodes a document
    whose [token] field equals the filter's value, whichever the database
    picks when there are several; it fails with [ErrNoDocuments] when no
    document has the token; and, whatever the collection holds, it can fail
    with an error of the driver.  The query is a read: it has no effect on
    the collection. *)
Inductive One (coll : Collection) (token : string) : ActiveUser + Error -> Prop :=
| One_document (doc : ActiveUser) :
    In doc coll -> Token doc = token -> One coll token (inl doc)
| One_no_documents :
    (forall doc, In doc coll -> Token doc <> token) -> One coll token (inr ErrNoDocuments)
| One_driver_error (msg : string) : One coll token (inr (DriverError msg)).

End qmgo.

Module controller.
Import protocol.

Definition AccountCollection : string := "accounts".
Definition ActiveUserCollection : string := "active_users".
Definition SMSCodeCollection : string := "sms_code".
Definition RoomsCollectionn : string := "rooms".

Record AuthController := {
  activeUserColl : qmgo.Collection
}.

(** [GetIDByToken] returns [(id, err)]; the controller is returned as well,
    to show what the call leaves in the store.  [answer] is what the query
    [Find(...).One] answered; the answers a collection allows are those of
    [qmgo.One]. *)
Definition GetIDByToken (c : AuthController) (token : string)
    (answer : ActiveUser + qmgo.Error)
  : (string * option qmgo.Error) * AuthController :=
  match answer with
  | inr err =>
      if negb (qmgo.IsErrNoDocuments err) then (("", Some err), c)
      else (("", Some err), c)
  | inl activeUserRecord => ((User_ID activeUserRecord, None), c)
  end.

(** Modelled from the spec: a session is expired when its time to live has
    run out.  The spec names expiry as missing from the code; the
    controller never reads [IssuedAt]. *)
Definition expired (ttl now : Z) (u : ActiveUser) : bool :=
  (IssuedAt u + ttl <? now)%Z.

End controller.

(* ===================================================================== *)
(** ** The room store behind [RoomInterface] *)
(* ===================================================================== *)

Module RoomLifecycle.
Import protocol.

(** Modelled from the spec: the failures of the room life cycle service
    (sections 4.2 and 4.3); the service is not among the sources. *)
Inductive Failure :=
| RoomNameUsed
| TooManyRooms
| RoomNoExist
| RoomInPK
| RoomNotInPK
| NoPermission
| IDConflict.

Abbreviation Rooms := (gmap string LiveRoom).

Definition is_closed (r : LiveRoom) : bool :=
  bool_decide (Status r = LiveRoomStatusClosed).

Definition is_single (r : LiveRoom) : bool :=
  bool_decide (Status r = LiveRoomStatusSingle).

(** The rooms of the collection, in the order of the store's iteration. *)
Definition all_rooms (m : Rooms) : list LiveRoom := snd <$> map_to_list m.

Definition open_rooms (m : Rooms) : list LiveRoom :=
  List.filter (fun r => negb (is_closed r)) (all_rooms m).

Definition name_in_use (name : string) (m : Rooms) : bool :=
  existsb (fun r => String.eqb (Name r) name) (open_rooms m).

Definition with_status (r : LiveRoom) (s : LiveRoomStatus) (p : option string) : LiveRoom :=
  {| ID := ID r; Name := Name r; Creator := Creator r; PlayURL := PlayURL r;
     RTCRoom := RTCRoom r; Status := s; PartnerRoomID := p |}.

(** Every room is stored under its own ID. *)
Definition keyed (m : Rooms) : Prop :=
  ∀ k r, m !! k = Some r → ID r = k.

(** Whoever names a partner is named back by it, and both are
    PKConnected. *)
Definition partner_symmetric (m : Rooms) : Prop :=
  ∀ a ra b, m !! a = Some ra → PartnerRoomID ra = Some b →
    ∃ rb, m !! b = Some rb ∧ PartnerRoomID rb = Some a ∧
          Status ra = LiveRoomStatusPKConnected ∧ Status rb = LiveRoomStatusPKConnected.

Section Service.
Variable capacity : nat.

(** Modelled from the spec: [CreateRoom] of section 4.2, the storage side.
    The room is inserted with Status Single under its ID; the insertion is
    refused when the name is used by a room that is not closed, when the
    capacity is reached, or when the ID is taken. *)
Definition CreateRoom (room : LiveRoom) (m : Rooms) : option Failure * Rooms :=
  if name_in_use (Name room) m then (Some RoomNameUsed, m)
  else if (capacity <=? length (open_rooms m))%nat then (Some TooManyRooms, m)
  else match m !! ID room with
       | Some _ => (Some IDConflict, m)
       | None => (None, <[ID room := with_status room LiveRoomStatusSingle None]> m)
       end.

(** Modelled from the spec: [ListRooms] of section 4.2, every room that is
    not closed. *)
Definition ListRooms (m : Rooms) : list LiveRoom := open_rooms m.

(** Modelled from the spec: [ListPKCandidates] of section 4.2, the Single
    rooms that the caller does not own. *)
Definition ListPKCandidates (callerID : string) (m : Rooms) : list LiveRoom :=
  List.filter (fun r => is_single r && negb (String.eqb (Creator r) callerID)) (all_rooms m).

(** Modelled from the spec: [RequestPK] of section 4.2.  Both rooms must
    exist and not be closed, and both must be Single; then both become
    PKConnected and name each other, in one step. *)
Definition RequestPK (callerRoomID targetRoomID : string) (m : Rooms)
  : option Failure * Rooms :=
  match m !! callerRoomID, m !! targetRoomID with
  | Some a, Some b =>
      if is_closed a || is_closed b then (Some RoomNoExist, m)
      else if negb (is_single a && is_single b) then (Some RoomInPK, m)
      else (None,
            <[targetRoomID := with_status b LiveRoomStatusPKConnected (Some callerRoomID)]>
              (<[callerRoomID := with_status a LiveRoomStatusPKConnected (Some targetRoomID)]> m))
  | _, _ => (Some RoomNoExist, m)
  end.

(** Modelled from the spec: [CloseRoom] of section 4.2.  Only the creator
    may close; the room becomes Closed whatever it was, and the partner of
    a PKConnected room goes back to Single with its partner cleared, in the
    same step. *)
Definition CloseRoom (callerID roomID : string) (m : Rooms) : option Failure * Rooms :=
  match m !! roomID with
  | None => (Some RoomNoExist, m)
  | Some a =>
      if negb (String.eqb (Creator a) callerID) then (Some NoPermission, m)
      else
        let m1 :=
          match Status a, PartnerRoomID a with
          | LiveRoomStatusPKConnected, Some p =>
              alter (fun b => with_status b LiveRoomStatusSingle None) p m
          | _, _ => m
          end in
        (None, <[roomID := with_status a LiveRoomStatusClosed None]> m1)
  end.

(** The operations that change the room collection. *)
Inductive Op :=
| OpCreateRoom (room : LiveRoom)
| OpRequestPK (callerRoomID targetRoomID : string)
| OpCloseRoom (callerID roomID : string).

Definition apply (op : Op) (m : Rooms) : option Failure * Rooms :=
  match op with
  | OpCreateRoom room => CreateRoom room m
  | OpRequestPK a b => RequestPK a b m
  | OpCloseRoom u r => CloseRoom u r m
  end.

(** The states of the collection that the service can bring about,
    starting with no room. *)
Inductive reachable : Rooms -> Prop :=
| reachable_empty : reachable ∅
| reachable_apply (op : Op) (m : Rooms) : reachable m -> reachable (snd (apply op m)).

(** Running a list of operations, first to last. *)
Definition run (ops : list Op) (m : Rooms) : Rooms :=
  fold_left (fun m op => snd (apply op m)) ops m.

End Service.

End RoomLifecycle.

(* ===================================================================== *)
(** ** A world for the handlers to run in *)
(* ===================================================================== *)

Module world.
Import errors protocol handler.

(** Everything outside the handlers: the room collection with its
    capacity, the active sessions, the numbers the SMS gateway was asked to
    reach, and the state of the random source. *)
Record World := {
  rooms : gmap string LiveRoom;
  capacity : nat;
  sessions : list ActiveUser;
  sms_sent : list string;
  seed : Z
}.

Definition set_rooms (w : World) (m : gmap string LiveRoom) : World :=
  {| rooms := m; capacity := capacity w; sessions := sessions w;
     sms_sent := sms_sent w; seed := seed w |}.

(** How a failure of the room service reaches the handler. *)
Definition to_error (f : RoomLifecycle.Failure) : error :=
  match f with
  | RoomLifecycle.RoomNameUsed =>
      IsServerError {| Code := ServerErrorRoomNameUsed; Summary := "room name used" |}
  | RoomLifecycle.TooManyRooms =>
      IsServerError {| Code := ServerErrorTooManyRooms; Summary := "too many rooms" |}
  | RoomLifecycle.RoomNoExist =>
      IsServerError {| Code := ServerErrorRoomNotFound; Summary := "room not found" |}
  | RoomLifecycle.NoPermission =>
      IsServerError {| Code := ServerErrorNoPermission; Summary := "no permission" |}
  | RoomLifecycle.RoomInPK =>
      IsServerError {| Code := ServerErrorOther 1; Summary := "room in PK" |}
  | RoomLifecycle.RoomNotInPK =>
      IsServerError {| Code := ServerErrorOther 2; Summary := "room not in PK" |}
  | RoomLifecycle.IDConflict => OtherError "duplicate key"
  end.

#[global] Instance World_RoomInterface : RoomInterface World := {|
  Room_CreateRoom room w :=
    let '(f, m) := RoomLifecycle.CreateRoom (capacity w) room (rooms w) in
    (to_error <$> f, set_rooms w m);
  Room_ListAllRooms w := ((RoomLifecycle.ListRooms (rooms w), None), w);
  Room_ListPKRooms userID w := ((RoomLifecycle.ListPKCandidates userID (rooms w), None), w);
  Room_CloseRoom userID roomID w :=
    let '(f, m) := RoomLifecycle.CloseRoom userID roomID (rooms w) in
    (to_error <$> f, set_rooms w m)
|}.

(** A linear congruential source; [Intn n] reduces its state modulo [n]. *)
#[global] Instance World_RandSource : RandSource World := {|
  Intn n w :=
    (Z.to_nat (seed w mod Z.of_nat n),
     {| rooms := rooms w; capacity := capacity w; sessions := sessions w;
        sms_sent := sms_sent w;
        seed := (seed w * 1103515245 + 12345) mod 2147483648 |})
|}.

#[global] Instance World_SMSCodeInterface : SMSCodeInterface World := {|
  Send phoneNumber w :=
    (None,
     {| rooms := rooms w; capacity := capacity w; sessions := sessions w;
        sms_sent := phoneNumber :: sms_sent w; seed := seed w |})
|}.

#[global] Instance World_AccountInterface : AccountInterface World := {|
  AccountLogout id w :=
    (None,
     {| rooms := rooms w; capacity := capacity w;
        sessions := List.filter (fun u => negb (String.eqb (User_ID u) id)) (sessions w);
        sms_sent := sms_sent w; seed := seed w |})
|}.

Definition empty_world : World :=
  {| rooms := ∅; capacity := 100; sessions := []; sms_sent := []; seed := 42 |}.

Definition room_of (id name creator : string) : LiveRoom :=
  {| ID := id; Name := name; Creator := creator; PlayURL := ""; RTCRoom := id;
     Status := LiveRoomStatusSingle; PartnerRoomID := None |}.

(** A world in which bob has one room, open and Single. *)
Definition bob_world : World :=
  set_rooms empty_world {[ "r1" := room_of "r1" "bob_stream" "bob" ]}.

(** A request of a logged-in user, with the given query and body. *)
Definition request (user : option string) (q : gmap string string)
    (create : option CreateRoomArgs) (close : option CloseRoomArgs) : gin.Context :=
  {| gin.ReqId := "req-1";
     gin.UserID := gin.VString <$> user;
     gin.Query := q;
     gin.Bind_CreateRoomArgs := create;
     gin.Bind_CloseRoomArgs := close |}.

Definition the_handler : RoomHandler :=
  {| LiveHost := "live.example.com"; LiveHub := "hub" |}.

(** Requests against [bob_world]: alice, logged in, lists rooms, asks to
    close bob's room, and creates a room of her own; somebody who is not
    logged in asks to log out, and asks for a code with a number wrapped in
    other characters. *)
Definition alice_lists : gin.Context := request (Some "alice") ∅ None None.

Definition alice_lists_can_pk : gin.Context :=
  request (Some "alice") {[ "can_pk" := "true" ]} None None.

Definition alice_closes_r1 : gin.Context :=
  request (Some "alice") ∅ None (Some {| RoomID := "r1" |}).

Definition alice_creates : gin.Context :=
  request (Some "alice") ∅ (Some {| RoomName := "alice_stream" |}) None.

Definition alice_creates_taken : gin.Context :=
  request (Some "alice") ∅ (Some {| RoomName := "bob_stream" |}) None.

(** What a successful creation by alice in [empty_world] answers. *)
Definition alice_created : gin.Body :=
  gin.BodyCreateRoomResponse
    {| Created_RoomID := "6r8hyj0h6zk56ngl"; Created_RoomName := "alice_stream";
       Created_RTCRoom := "6r8hyj0h6zk56ngl"; RTCRoomToken := "" |}.

Definition anonymous_logout : gin.Context := request None ∅ None None.

Definition padded_phone_number : gin.Context :=
  request None {[ "phone_number" := "a13812345678" ]} None None.

(** The table of the spec's error taxonomy (section 4.4), written from the
    spec's words, to compare the switches of the handlers with. *)
Definition taxonomy_status (code : ServerErrorCode) : Z :=
  match code with
  | ServerErrorRoomNameUsed => 409
  | ServerErrorTooManyRooms => 503
  | ServerErrorNoPermission => 403
  | ServerErrorRoomNotFound => 404
  | _ => 500
  end.

(** Two active sessions, and the controller over them. *)
Definition two_sessions : controller.AuthController :=
  {| controller.activeUserColl :=
       [ {| User_ID := "alice"; Token := "tok-a"; IssuedAt := 1 |};
         {| User_ID := "bob"; Token := "tok-b"; IssuedAt := 2 |} ] |}.

(** The scenario of the spec's section 8, up to the pairing, and its
    end: alice creates a room, a second room of the same name is refused,
    bob creates his, the two are paired; then alice closes hers. *)
Definition alice_room : LiveRoom := room_of "ra" "alice_stream" "alice".
Definition alice_again : LiveRoom := room_of "rx" "alice_stream" "alice".
Definition bob_room : LiveRoom := room_of "rb" "bob_stream" "bob".

Definition pairing : list RoomLifecycle.Op :=
  [ RoomLifecycle.OpCreateRoom alice_room;
    RoomLifecycle.OpCreateRoom alice_again;
    RoomLifecycle.OpCreateRoom bob_room;
    RoomLifecycle.OpRequestPK "ra" "rb" ].

Definition paired_rooms : gmap string LiveRoom := RoomLifecycle.run 100 pairing ∅.

Definition closed_rooms : gmap string LiveRoom :=
  RoomLifecycle.run 100 [RoomLifecycle.OpCloseRoom "alice" "ra"] paired_rooms.

End world.

(* ===================================================================== *)
(** ** Package [handler], account.go: logging in and the profile *)
(* ===================================================================== *)

Module account.
Import errors protocol handler.
Local Open Scope list_scope.

(** Modelled from the spec: [protocol.Account] and the argument and
    response types of the login and profile handlers are not among the
    sources; the fields are those the handlers read or write. *)
Record Account := {
  Account_ID : string;
  PhoneNumber : string;
  Nickname : string;
  Gender : string
}.

Record SMSLoginArgs := { Args_PhoneNumber : string; SMSCode : string }.
Record UpdateProfileArgs := { Args_Nickname : string; Args_Gender : string }.

Record UserInfo := { Info_ID : string; Info_Nickname : string; Info_Gender : string }.
Record LoginResponse := { Login_UserInfo : UserInfo; Login_Token : string }.
Record UpdateProfileResponse := {
  Updated_ID : string;
  Updated_Nickname : string;
  Updated_Gender : string
}.

(** Modelled from the spec: the [Error] method of a Go error.  For a
    [ServerError] it is taken to be the message the error carries. *)
Definition Error_ (e : error) : string :=
  match e with
  | IsServerError se => Summary se
  | OtherError msg => msg
  end.

(** Modelled from the spec: the [HTTPError] constructors these handlers
    call, kept as before by the constructor that built the value. *)
Inductive HTTPErrorKind :=
| BadRequest | BadLoginType | WrongSMSCode | Unauthorized | AlreadyLoggedin
| NoSuchUser | Internal.

Record HTTPError := {
  Kind : HTTPErrorKind;
  RequestID : string;
  Message : option string
}.

Definition NewHTTPError (k : HTTPErrorKind) : HTTPError :=
  {| Kind := k; RequestID := ""; Message := None |}.
Definition WithRequestID (rid : string) (e : HTTPError) : HTTPError :=
  {| Kind := Kind e; RequestID := rid; Message := Message e |}.
Definition WithMessage (m : string) (e : HTTPError) : HTTPError :=
  {| Kind := Kind e; RequestID := RequestID e; Message := Some m |}.

(** The request as these handlers see it: the context, and the outcome of
    [c.BindJSON] into the argument type of the handler that asks for it. *)
Record Request := {
  Ctx : gin.Context;
  Bind_SMSLoginArgs : option SMSLoginArgs;
  Bind_UpdateProfileArgs : option UpdateProfileArgs
}.

Inductive Body :=
| BodyHTTPError (e : HTTPError)
| BodyLoginResponse (r : LoginResponse)
| BodyUpdateProfileResponse (r : UpdateProfileResponse).

(** Response writes and interface calls, in program order. *)
Inductive Event :=
| EvJSON (status : Z) (body : Body)
| EvSetCookieLoginToken (value : string) (maxAge : Z)
| EvValidate (phoneNumber smsCode : string)
| EvGetAccountByPhoneNumber (phoneNumber : string)
| EvGetAccountByID (id : string)
| EvCreateAccount (a : Account)
| EvUpdateAccount (id : string) (a : Account)
| EvAccountLogin (id : string).

Record Run (St : Type) := mkRun {
  state : St;
  events : list Event;
  outcome : gin.Outcome
}.
Arguments mkRun {St} _ _ _.
Arguments state {St} _.
Arguments events {St} _.
Arguments outcome {St} _.

Definition statuses {St} (r : Run St) : list Z :=
  omap (fun e => match e with EvJSON status _ => Some status | _ => None end) (events r).

(** The methods of [AccountInterface] and [SMSCodeInterface] that the
    login and profile handlers call.  A pointer result is [None] for
    [nil]. *)
Class AccountStore (St : Type) := {
  GetAccountByPhoneNumber : string -> St -> (option Account * option error) * St;
  GetAccountByID : string -> St -> (option Account * option error) * St;
  CreateAccount : Account -> St -> option error * St;
  UpdateAccount : string -> Account -> St -> (option Account * option error) * St;
  AccountLogin : string -> St -> (string * option error) * St
}.

Class SMSCodeValidator (St : Type) := {
  Validate : string -> string -> St -> option error * St
}.

Definition LoginTypeSMSCode : string := "smscode".

Section Handlers.
Context {St : Type} `{AccountStore St} `{SMSCodeValidator St} `{RandSource St}.

(** The loop of [generateUserID], [n] iterations to go. *)
Fixpoint generateUserID_loop (n : nat) (id : string) (st : St) : option string * St :=
  match n with
  | O => (Some id, st)
  | S n' =>
      let '(index, st1) := Intn (String.length alphaNum) st in
      match String.get index alphaNum with
      | Some ch => generateUserID_loop n' (id +:+ String ch "") st1
      | None => (None, st1)
      end
  end.

Definition generateUserID (st : St) : option string * St :=
  let idLength := 12%nat in
  generateUserID_loop idLength "" st.

(** The end of [LoginBySMS], from the comment on marking the account as
    logged in: both ways of getting an account, the lookup and the
    creation, continue here.  [evs] is what the handler did so far. *)
Definition LoginBySMS_login (requestID : string) (account : option Account)
    (st : St) (evs : list Event) : Run St :=
  match account with
  | None => mkRun st evs (gin.Panicked "invalid memory address or nil pointer dereference")
  | Some account =>
      let '((token, err), st1) := AccountLogin (Account_ID account) st in
      match err with
      | Some (IsServerError {| Code := ServerErrorUserLoggedin |}) =>
          let httpErr := WithRequestID requestID (NewHTTPError AlreadyLoggedin) in
          mkRun st1 (evs ++ [EvAccountLogin (Account_ID account);
                             EvJSON http.StatusUnauthorized (BodyHTTPError httpErr)])
                gin.Returned
      | Some _ =>
          let httpErr := WithRequestID requestID (NewHTTPError Unauthorized) in
          mkRun st1 (evs ++ [EvAccountLogin (Account_ID account);
                             EvJSON http.StatusUnauthorized (BodyHTTPError httpErr)])
                gin.Returned
      | None =>
          let res := {| Login_UserInfo := {| Info_ID := Account_ID account;
                                              Info_Nickname := Nickname account;
                                              Info_Gender := Gender account |};
                        Login_Token := token |} in
          mkRun st1 (evs ++ [EvAccountLogin (Account_ID account);
                             EvSetCookieLoginToken token 0;
                             EvJSON http.StatusOK (BodyLoginResponse res)])
                gin.Returned
      end
  end.

Definition LoginBySMS (r : Request) (st : St) : Run St :=
  let requestID := gin.ReqId (Ctx r) in
  match Bind_SMSLoginArgs r with
  | None =>
      let httpError := WithMessage "invalid args in request body"
                         (WithRequestID requestID (NewHTTPError BadRequest)) in
      mkRun st [EvJSON http.StatusBadRequest (BodyHTTPError httpError)] gin.Returned
  | Some args =>
      let '(err, st1) := Validate (Args_PhoneNumber args) (SMSCode args) st in
      let ev1 := [EvValidate (Args_PhoneNumber args) (SMSCode args)] in
      match err with
      | Some _ =>
          let httpErr := WithRequestID requestID (NewHTTPError WrongSMSCode) in
          mkRun st1 (ev1 ++ [EvJSON http.StatusUnauthorized (BodyHTTPError httpErr)])
                gin.Returned
      | None =>
          let '((account, err), st2) := GetAccountByPhoneNumber (Args_PhoneNumber args) st1 in
          let ev2 := ev1 ++ [EvGetAccountByPhoneNumber (Args_PhoneNumber args)] in
          match err with
          | Some e =>
              if String.eqb (Error_ e) "not found" then
                match generateUserID st2 with
                | (None, st3) => mkRun st3 ev2 (gin.Panicked "index out of range")
                | (Some uid, st3) =>
                    let newAccount := {| Account_ID := uid;
                                         PhoneNumber := Args_PhoneNumber args;
                                         Nickname := "";
                                         Gender := "" |} in
                    let '(createErr, st4) := CreateAccount newAccount st3 in
                    match createErr with
                    | Some _ =>
                        let httpErr := WithRequestID requestID (NewHTTPError Unauthorized) in
                        mkRun st4
                          (ev2 ++ [EvCreateAccount newAccount;
                                   EvJSON http.StatusUnauthorized (BodyHTTPError httpErr)])
                          gin.Returned
                    | None =>
                        LoginBySMS_login requestID (Some newAccount) st4
                          (ev2 ++ [EvCreateAccount newAccount])
                    end
                end
              else
                let httpErr := WithRequestID requestID (NewHTTPError Unauthorized) in
                mkRun st2 (ev2 ++ [EvJSON http.StatusUnauthorized (BodyHTTPError httpErr)])
                      gin.Returned
          | None => LoginBySMS_login requestID account st2 ev2
          end
      end
  end.

Definition Login (r : Request) (st : St) : Run St :=
  let requestID := gin.ReqId (Ctx r) in
  let '(loginType, ok) := gin.GetQuery (Ctx r) "logintype" in
  if negb ok then
    let httpErr := WithMessage "empty login type"
                     (WithRequestID requestID (NewHTTPError BadLoginType)) in
    mkRun st [EvJSON http.StatusBadRequest (BodyHTTPError httpErr)] gin.Returned
  else if String.eqb loginType LoginTypeSMSCode then LoginBySMS r st
  else
    let httpErr := WithMessage ("login type " +:+ loginType +:+ " not supported")
                     (WithRequestID requestID (NewHTTPError BadLoginType)) in
    mkRun st [EvJSON http.StatusBadRequest (BodyHTTPError httpErr)] gin.Returned.

Definition UpdateProfile (r : Request) (st : St) : Run St :=
  let requestID := gin.ReqId (Ctx r) in
  let id := gin.GetString_UserID (Ctx r) in
  match Bind_UpdateProfileArgs r with
  | None =>
      let httpErr := WithMessage "invalid args in request body"
                       (WithRequestID requestID (NewHTTPError BadRequest)) in
      mkRun st [EvJSON http.StatusBadRequest (BodyHTTPError httpErr)] gin.Returned
  | Some args =>
      let '((account, err), st1) := GetAccountByID id st in
      let ev1 := [EvGetAccountByID id] in
      match err with
      | Some _ =>
          let httpErr := WithMessage ("user " +:+ id +:+ " not found")
                           (WithRequestID requestID (NewHTTPError NoSuchUser)) in
          mkRun st1 (ev1 ++ [EvJSON http.StatusNotFound (BodyHTTPError httpErr)]) gin.Returned
      | None =>
          match account with
          | None =>
              mkRun st1 ev1 (gin.Panicked "invalid memory address or nil pointer dereference")
          | Some account =>
              if negb (String.eqb (Account_ID account) "")
                 && negb (String.eqb (Account_ID account) id) then
                let httpErr := WithMessage ("user " +:+ id +:+ " not found")
                                 (WithRequestID requestID (NewHTTPError NoSuchUser)) in
                mkRun st1 (ev1 ++ [EvJSON http.StatusNotFound (BodyHTTPError httpErr)])
                      gin.Returned
              else
                let account :=
                  if negb (String.eqb (Args_Nickname args) "") then
                    {| Account_ID := Account_ID account; PhoneNumber := PhoneNumber account;
                       Nickname := Args_Nickname args; Gender := Gender account |}
                  else account in
                let account :=
                  if negb (String.eqb (Args_Gender args) "") then
                    {| Account_ID := Account_ID account; PhoneNumber := PhoneNumber account;
                       Nickname := Nickname account; Gender := Args_Gender args |}
                  else account in
                let '((newAccount, err), st2) := UpdateAccount id account st1 in
                let ev2 := ev1 ++ [EvUpdateAccount id account] in
                match err with
                | Some e =>
                    let httpErr := WithMessage ("update account failed: " +:+ Error_ e)
                                     (WithRequestID requestID (NewHTTPError Internal)) in
                    mkRun st2
                      (ev2 ++ [EvJSON http.StatusInternalServerError (BodyHTTPError httpErr)])
                      gin.Returned
                | None =>
                    match newAccount with
                    | None =>
                        mkRun st2 ev2
                          (gin.Panicked "invalid memory address or nil pointer dereference")
                    | Some newAccount =>
                        let ret := {| Updated_ID := Account_ID newAccount;
                                      Updated_Nickname := Nickname newAccount;
                                      Updated_Gender := Gender newAccount |} in
                        mkRun st2
                          (ev2 ++ [EvJSON http.StatusOK (BodyUpdateProfileResponse ret)])
                          gin.Returned
                    end
                end
          end
      end
  end.

End Handlers.

End account.

(* ===================================================================== *)
(** ** A world for the login and profile handlers *)
(* ===================================================================== *)

Module account_world.
Import errors protocol handler account.
Local Open Scope list_scope.

(** The accounts, the active sessions, the codes sent and not yet used (by
    phone number), and the state of the random source. *)
Record World := {
  accounts : list Account;
  active : list ActiveUser;
  codes : list (string * string);
  seed : Z
}.

Definition code_matches (phoneNumber smsCode : string) (entry : string * string) : bool :=
  String.eqb (fst entry) phoneNumber && String.eqb (snd entry) smsCode.

#[global] Instance World_SMSCodeValidator : SMSCodeValidator World := {|
  Validate phoneNumber smsCode w :=
    if existsb (code_matches phoneNumber smsCode) (codes w) then
      (None,
       {| accounts := accounts w; active := active w;
          codes := List.filter (fun e => negb (String.eqb (fst e) phoneNumber)) (codes w);
          seed := seed w |})
    else (Some (OtherError "wrong code"), w)
|}.

Definition replace_account (id : string) (a : Account) (l : list Account) : list Account :=
  map (fun b => if String.eqb (Account_ID b) id then a else b) l.

#[global] Instance World_AccountStore : AccountStore World := {|
  GetAccountByPhoneNumber phoneNumber w :=
    match List.find (fun a => String.eqb (PhoneNumber a) phoneNumber) (accounts w) with
    | Some a => ((Some a, None), w)
    | None => ((None, Some (OtherError "not found")), w)
    end;
  GetAccountByID id w :=
    match List.find (fun a => String.eqb (Account_ID a) id) (accounts w) with
    | Some a => ((Some a, None), w)
    | None => ((None, Some (OtherError "not found")), w)
    end;
  CreateAccount a w :=
    (None,
     {| accounts := accounts w ++ [a]; active := active w; codes := codes w;
        seed := seed w |});
  UpdateAccount id a w :=
    if existsb (fun b => String.eqb (Account_ID b) id) (accounts w) then
      ((Some a, None),
       {| accounts := replace_account id a (accounts w); active := active w;
          codes := codes w; seed := seed w |})
    else ((None, Some (OtherError "not found")), w);
  AccountLogin id w :=
    if existsb (fun u => String.eqb (User_ID u) id) (active w) then
      (("", Some (IsServerError {| Code := ServerErrorUserLoggedin;
                                   Summary := "user already logged in" |})), w)
    else
      (("token-" +:+ id, None),
       {| accounts := accounts w;
          active := active w ++ [{| User_ID := id; Token := "token-" +:+ id; IssuedAt := 0 |}];
          codes := codes w; seed := seed w |})
|}.

#[global] Instance World_RandSource : RandSource World := {|
  Intn n w :=
    (Z.to_nat (seed w mod Z.of_nat n),
     {| accounts := accounts w; active := active w; codes := codes w;
        seed := (seed w * 1103515245 + 12345) mod 2147483648 |})
|}.

(** Alice has an account; a code is waiting for her number and one for a
    number without an account. *)
Definition alice : Account :=
  {| Account_ID := "u1"; PhoneNumber := "13812345678"; Nickname := "al"; Gender := "f" |}.

Definition start : World :=
  {| accounts := [alice]; active := [];
     codes := [("13812345678", "1234"); ("13900000000", "9999")]; seed := 7 |}.

Definition context (user : option string) (q : gmap string string) : gin.Context :=
  {| gin.ReqId := "req-2"; gin.UserID := gin.VString <$> user; gin.Query := q;
     gin.Bind_CreateRoomArgs := None; gin.Bind_CloseRoomArgs := None |}.

Definition alice_logs_in : Request :=
  {| Ctx := context None {[ "logintype" := "smscode" ]};
     Bind_SMSLoginArgs := Some {| Args_PhoneNumber := "13812345678"; SMSCode := "1234" |};
     Bind_UpdateProfileArgs := None |}.

Definition alice_wrong_code : Request :=
  {| Ctx := context None {[ "logintype" := "smscode" ]};
     Bind_SMSLoginArgs := Some {| Args_PhoneNumber := "13812345678"; SMSCode := "0000" |};
     Bind_UpdateProfileArgs := None |}.

Definition newcomer_logs_in : Request :=
  {| Ctx := context None {[ "logintype" := "smscode" ]};
     Bind_SMSLoginArgs := Some {| Args_PhoneNumber := "13900000000"; SMSCode := "9999" |};
     Bind_UpdateProfileArgs := None |}.

Definition password_login : Request :=
  {| Ctx := context None {[ "logintype" := "password" ]};
     Bind_SMSLoginArgs := Some {| Args_PhoneNumber := "13812345678"; SMSCode := "1234" |};
     Bind_UpdateProfileArgs := None |}.

Definition alice_renames : Request :=
  {| Ctx := context (Some "u1") ∅;
     Bind_SMSLoginArgs := None;
     Bind_UpdateProfileArgs := Some {| Args_Nickname := "alice"; Args_Gender := "" |} |}.

Definition bob_renames_alice : Request :=
  {| Ctx := context (Some "u2") ∅;
     Bind_SMSLoginArgs := None;
     Bind_UpdateProfileArgs := Some {| Args_Nickname := "mallory"; Args_Gender := "" |} |}.

(** A store that answers every lookup with the one account it holds,
    whatever was asked for, and accepts every update. *)
Record Single := { held : Account }.

#[global] Instance Single_AccountStore : AccountStore Single := {|
  GetAccountByPhoneNumber phoneNumber w := ((Some (held w), None), w);
  GetAccountByID id w := ((Some (held w), None), w);
  CreateAccount a w := (None, w);
  UpdateAccount id a w := ((Some a, None), {| held := a |});
  AccountLogin id w := (("token-" +:+ id, None), w)
|}.

#[global] Instance Single_SMSCodeValidator : SMSCodeValidator Single := {|
  Validate phoneNumber smsCode w := (None, w)
|}.

#[global] Instance Single_RandSource : RandSource Single := {|
  Intn n w := (0%nat, w)
|}.

End account_world.

(* ===================================================================== *)
(** ** Errors that are nil pointers *)
(* ===================================================================== *)

Module typed_nil.
Import errors protocol gin handler.

(** A Go [error] that is not [nil], with the one value that [errors.error]
    leaves out: a nil pointer to [ServerError] stored in the interface
    value.  Such an error is not [nil], the type assertion to a pointer to
    [ServerError] succeeds on it, and reading [serverErr.Code] then
    dereferences nil. *)
Inductive goerror :=
| Held (e : error)
| NilServerError.

(** The methods whose error the handlers inspect by type assertion, with
    errors of this kind. *)
Class RoomInterface (St : Type) := {
  Room_CreateRoom : LiveRoom -> St -> option goerror * St;
  Room_CloseRoom : string -> string -> St -> option goerror * St
}.

Class SMSCodeInterface (St : Type) := {
  Send : string -> St -> option goerror * St
}.

(** An interface whose errors are values of [errors.error] is an interface
    of this kind, one that never returns the nil pointer. *)
#[global] Instance RoomInterface_of {St : Type} `{handler.RoomInterface St}
  : RoomInterface St := {|
  Room_CreateRoom room st :=
    let '(err, st1) := handler.Room_CreateRoom room st in (Held <$> err, st1);
  Room_CloseRoom userID roomID st :=
    let '(err, st1) := handler.Room_CloseRoom userID roomID st in (Held <$> err, st1)
|}.

#[global] Instance SMSCodeInterface_of {St : Type} `{handler.SMSCodeInterface St}
  : SMSCodeInterface St := {|
  Send phoneNumber st :=
    let '(err, st1) := handler.Send phoneNumber st in (Held <$> err, st1)
|}.

Section Handlers.
Context {St : Type} `{RoomInterface St} `{SMSCodeInterface St} `{RandSource St}.

(** [SendSMSCode], [CreateRoom] and [CloseRoom] once more, over these
    errors: where the handler reads [serverErr.Code] of the nil pointer it
    panics, after the call of the interface and before any answer. *)
Definition SendSMSCode (c : Context) (st : St) : Run St :=
  let requestID := ReqId c in
  let '(phoneNumber, ok) := GetQuery c "phone_number" in
  if negb ok then
    let httpErr := WithMessage "empty phone number"
                     (WithRequestID requestID (NewHTTPError InvalidPhoneNumber)) in
    mkRun st [EvJSON http.StatusBadRequest (BodyHTTPError httpErr)] Returned
  else if negb (validatePhoneNumber phoneNumber) then
    let httpErr := WithMessage "invalid phone number"
                     (WithRequestID requestID (NewHTTPError InvalidPhoneNumber)) in
    mkRun st [EvJSON http.StatusBadRequest (BodyHTTPError httpErr)] Returned
  else
    let '(err, st1) := Send phoneNumber st in
    match err with
    | Some NilServerError =>
        mkRun st1 [EvSMSSend phoneNumber]
              (Panicked "invalid memory address or nil pointer dereference")
    | Some (Held e) =>
        match e with
        | IsServerError {| Code := ServerErrorSMSSendTooFrequent |} =>
            let httpErr := WithRequestID requestID (NewHTTPError SMSSendTooFrequent) in
            mkRun st1 [EvSMSSend phoneNumber;
                       EvJSON http.StatusTooManyRequests (BodyHTTPError httpErr)] Returned
        | _ =>
            mkRun st1 [EvSMSSend phoneNumber;
                       EvJSON http.StatusInternalServerError (BodyError e)] Returned
        end
    | None =>
        mkRun st1 [EvSMSSend phoneNumber; EvJSON http.StatusOK (BodyString "")] Returned
    end.

Definition CreateRoom (h : RoomHandler) (c : Context) (st : St) : Run St :=
  let requestID := ReqId c in
  let userID := GetString_UserID c in
  match Bind_CreateRoomArgs c with
  | None =>
      let httpErr := WithMessage "invalid args in request body"
                       (WithRequestID requestID (NewHTTPError BadRequest)) in
      mkRun st [EvJSON http.StatusBadRequest (BodyHTTPError httpErr)] Returned
  | Some args =>
      if negb (validateRoomName (RoomName args)) then
        let httpErr := WithMessage ("invalid room name " +:+ RoomName args)
                         (WithRequestID requestID (NewHTTPError InvalidRoomName)) in
        mkRun st [EvJSON http.StatusBadRequest (BodyHTTPError httpErr)] Returned
      else
        match generateRoomID st with
        | (None, st1) => mkRun st1 [] (Panicked "index out of range")
        | (Some roomID, st1) =>
            let room := {| ID := roomID;
                           Name := RoomName args;
                           Creator := userID;
                           PlayURL := generatePlayURL h roomID;
                           RTCRoom := roomID;
                           Status := LiveRoomStatusSingle;
                           PartnerRoomID := None |} in
            let '(err, st2) := Room_CreateRoom room st1 in
            match err with
            | Some NilServerError =>
                mkRun st2 [EvRoomCreateRoom room]
                      (Panicked "invalid memory address or nil pointer dereference")
            | Some (Held (OtherError _)) =>
                let httpErr := WithRequestID requestID (NewHTTPError Internal) in
                mkRun st2 [EvRoomCreateRoom room;
                           EvJSON http.StatusInternalServerError (BodyHTTPError httpErr)]
                      Returned
            | Some (Held (IsServerError serverErr)) =>
                match Code serverErr with
                | ServerErrorRoomNameUsed =>
                    let httpErr := WithRequestID requestID (NewHTTPError RoomNameused) in
                    mkRun st2 [EvRoomCreateRoom room;
                               EvJSON http.StatusConflict (BodyHTTPError httpErr)] Returned
                | ServerErrorTooManyRooms =>
                    let httpErr := WithRequestID requestID (NewHTTPError TooManyRooms) in
                    mkRun st2 [EvRoomCreateRoom room;
                               EvJSON http.StatusServiceUnavailable (BodyHTTPError httpErr)]
                          Returned
                | _ =>
                    let httpErr := WithRequestID requestID (NewHTTPError Internal) in
                    mkRun st2 [EvRoomCreateRoom room;
                               EvJSON http.StatusInternalServerError (BodyHTTPError httpErr)]
                          Returned
                end
            | None =>
                let resp := {| Created_RoomID := roomID;
                               Created_RoomName := RoomName args;
                               Created_RTCRoom := roomID;
                               RTCRoomToken := generateRTCRoomToken roomID |} in
                mkRun st2 [EvRoomCreateRoom room;
                           EvJSON http.StatusOK (BodyCreateRoomResponse resp)] Returned
            end
        end
  end.

Definition CloseRoom (h : RoomHandler) (c : Context) (st : St) : Run St :=
  let requestID := ReqId c in
  let userID := GetString_UserID c in
  match Bind_CloseRoomArgs c with
  | None =>
      let httpErr := WithMessage "invalid args in request body"
                       (WithRequestID requestID (NewHTTPError BadRequest)) in
      mkRun st [EvJSON http.StatusBadRequest (BodyHTTPError httpErr)] Returned
  | Some args =>
      let '(err, st1) := Room_CloseRoom userID (RoomID args) st in
      match err with
      | Some NilServerError =>
          mkRun st1 [EvRoomCloseRoom userID (RoomID args)]
                (Panicked "invalid memory address or nil pointer dereference")
      | Some (Held (OtherError _)) =>
          let httpErr := WithRequestID requestID (NewHTTPError Internal) in
          mkRun st1 [EvRoomCloseRoom userID (RoomID args);
                     EvJSON http.StatusInternalServerError (BodyHTTPError httpErr)] Returned
      | Some (Held (IsServerError serverErr)) =>
          match Code serverErr with
          | ServerErrorRoomNotFound =>
              let httpErr := WithRequestID requestID (NewHTTPError NoSuchRoom) in
              mkRun st1 [EvRoomCloseRoom userID (RoomID args);
                         EvJSON http.StatusNotFound (BodyHTTPError httpErr)] Returned
          | _ =>
              let httpErr := WithRequestID requestID (NewHTTPError Internal) in
              mkRun st1 [EvRoomCloseRoom userID (RoomID args);
                         EvJSON http.StatusInternalServerError (BodyHTTPError httpErr)] Returned
          end
      | None => mkRun st1 [EvRoomCloseRoom userID (RoomID args)] Returned
      end
  end.

End Handlers.

(** A store and a gateway all of whose calls fail with the nil pointer;
    [calls] counts them. *)
Record NilStore := { calls : nat }.

#[global] Instance NilStore_RoomInterface : RoomInterface NilStore := {|
  Room_CreateRoom room w := (Some NilServerError, {| calls := S (calls w) |});
  Room_CloseRoom userID roomID w := (Some NilServerError, {| calls := S (calls w) |})
|}.

#[global] Instance NilStore_SMSCodeInterface : SMSCodeInterface NilStore := {|
  Send phoneNumber w := (Some NilServerError, {| calls := S (calls w) |})
|}.

#[global] Instance NilStore_RandSource : RandSource NilStore := {|
  Intn n w := (0%nat, w)
|}.

End typed_nil.

(* ===================================================================== *)
(** * Properties *)
(* ===================================================================== *)

Import errors protocol gin handler.

(** ** The web-socket error table *)

Lemma WSErrorToString_lookup (k : Z) :
  WSErrorToString !! k =
    if decide (k = 0) then Some ""
    else if decide (k = 10001) then Some "unknown message"
    else if decide (k = 10002) then Some "token invalid"
    else if decide (k = 10003) then Some "no permission"
    else if decide (k = 10011) then Some "room no exist"
    else if decide (k = 10012) then Some "room in PK"
    else if decide (k = 10013) then Some "room not in PK"
    else None.
Proof.
  unfold WSErrorToString, WSErrorOK, WSErrorUnknownMessage, WSErrorTokenInvalid,
    WSErrorNoPermission, WSErrorRoomNoExist, WSErrorRoomInPK, WSErrorRoomNotInPK.
  repeat (rewrite lookup_insert; repeat case_decide; try lia; try reflexivity).
Qed.

(** C9: the table is defined on exactly the seven codes, gives each its
    fixed description, and no two codes share a description. *)
Theorem WSErrorToString_table :
  dom WSErrorToString = ({[0; 10001; 10002; 10003; 10011; 10012; 10013]} : gset Z) ∧
  WSErrorToString !! 0 = Some "" ∧
  WSErrorToString !! 10001 = Some "unknown message" ∧
  WSErrorToString !! 10002 = Some "token invalid" ∧
  WSErrorToString !! 10003 = Some "no permission" ∧
  WSErrorToString !! 10011 = Some "room no exist" ∧
  WSErrorToString !! 10012 = Some "room in PK" ∧
  WSErrorToString !! 10013 = Some "room not in PK" ∧
  (∀ (k1 k2 : Z) (d : string),
     WSErrorToString !! k1 = Some d → WSErrorToString !! k2 = Some d → k1 = k2).
Proof.
  split.
  { unfold WSErrorToString, WSErrorOK, WSErrorUnknownMessage, WSErrorTokenInvalid,
      WSErrorNoPermission, WSErrorRoomNoExist, WSErrorRoomInPK, WSErrorRoomNotInPK.
    rewrite !dom_insert_L, dom_empty_L. set_solver. }
  repeat split; try (rewrite WSErrorToString_lookup; reflexivity).
  intros k1 k2 d. rewrite !WSErrorToString_lookup.
  repeat case_decide; intros; congruence.
Qed.

Lemma WSErrorToString_table_witness : (10012 : Z) = 10012.
Proof.
  apply (proj2 (proj2 (proj2 (proj2 (proj2 (proj2 (proj2 (proj2
           WSErrorToString_table))))))) 10012 10012 "room in PK");
    rewrite WSErrorToString_lookup; reflexivity.
Defined.

(** ** Strings *)

Lemma append_cons (a : ascii) (s t : string) : String a s +:+ t = String a (s +:+ t).
Proof. reflexivity. Qed.

Lemma append_nil_l (t : string) : "" +:+ t = t.
Proof. reflexivity. Qed.

Lemma append_nil_r (s : string) : s +:+ "" = s.
Proof. induction s as [|a s IH]; [reflexivity|]. rewrite append_cons, IH. reflexivity. Qed.

Lemma append_assoc (s t u : string) : (s +:+ t) +:+ u = s +:+ (t +:+ u).
Proof.
  induction s as [|a s IH]; [reflexivity|].
  rewrite !append_cons, IH. reflexivity.
Qed.

Lemma length_append (s t : string) :
  String.length (s +:+ t) = (String.length s + String.length t)%nat.
Proof.
  induction s as [|a s IH]; [reflexivity|].
  rewrite append_cons. simpl. rewrite IH. reflexivity.
Qed.

Lemma list_ascii_of_append (s t : string) :
  list_ascii_of_string (s +:+ t) = (list_ascii_of_string s ++ list_ascii_of_string t)%list.
Proof.
  induction s as [|a s IH]; [reflexivity|].
  rewrite append_cons. simpl. rewrite IH. reflexivity.
Qed.

Lemma get_In (i : nat) (s : string) (ch : ascii) :
  String.get i s = Some ch → In ch (list_ascii_of_string s).
Proof.
  revert i. induction s as [|a s IH]; intros i Hget; [discriminate|].
  destruct i as [|i]; simpl in *.
  - left. congruence.
  - right. eauto.
Qed.

Lemma get_lt (i : nat) (s : string) :
  (i < String.length s)%nat → ∃ ch, String.get i s = Some ch.
Proof.
  revert i. induction s as [|a s IH]; intros i Hlt; simpl in *; [lia|].
  destruct i as [|i]; [eauto|]. apply IH. lia.
Qed.

(** ** The room handler *)

Section RoomHandlerFacts.
Context {St : Type} `{RoomInterface St} `{RandSource St}.

(** The loop appends [n] bytes of [alphaNum] to what it was given. *)
Lemma generateRoomID_loop_Some (n : nat) (acc roomID : string) (st st' : St) :
  generateRoomID_loop n acc st = (Some roomID, st') →
  ∃ tail, roomID = acc +:+ tail ∧ String.length tail = n ∧
          Forall (λ ch, In ch (list_ascii_of_string alphaNum)) (list_ascii_of_string tail).
Proof.
  revert acc st. induction n as [|n IH]; intros acc st Hloop; cbn [generateRoomID_loop] in Hloop.
  - exists "". inversion Hloop; subst. rewrite append_nil_r. auto.
  - destruct (Intn _ st) as [index st1].
    destruct (String.get index alphaNum) as [ch|] eqn:Hget; [|discriminate Hloop].
    apply IH in Hloop as (tail & -> & Hlen & Hall).
    exists (String ch tail). rewrite append_assoc. split; [reflexivity|].
    split; [simpl; lia|].
    change (list_ascii_of_string (String ch tail)) with (ch :: list_ascii_of_string tail).
    constructor; [exact (get_In _ _ _ Hget) | assumption].
Qed.

Lemma generateRoomID_Some (roomID : string) (st st' : St) :
  generateRoomID st = (Some roomID, st') →
  String.length roomID = 16%nat ∧
  Forall (λ ch, In ch (list_ascii_of_string alphaNum)) (list_ascii_of_string roomID).
Proof.
  unfold generateRoomID. intros Hgen.
  apply generateRoomID_loop_Some in Hgen as (tail & -> & Hlen & Hall).
  rewrite append_nil_l. auto.
Qed.

(** With a source that keeps [Intn n] below [n], as [math/rand] promises,
    the loop never indexes out of range: an ID is always produced. *)
Lemma generateRoomID_loop_total (n : nat) (acc : string) (st : St) :
  (∀ k s, (0 < k)%nat → (fst (Intn k s) < k)%nat) →
  ∃ roomID st', generateRoomID_loop n acc st = (Some roomID, st').
Proof.
  intros Hlaw. revert acc st. induction n as [|n IH]; intros acc st; cbn [generateRoomID_loop].
  - eauto.
  - destruct (Intn (String.length alphaNum) st) as [index st1] eqn:Hdraw.
    destruct (get_lt index alphaNum) as [ch ->].
    { specialize (Hlaw (String.length alphaNum) st). rewrite Hdraw in Hlaw.
      apply Hlaw. simpl. lia. }
    apply IH.
Qed.

Lemma generateRoomID_total (st : St) :
  (∀ k s, (0 < k)%nat → (fst (Intn k s) < k)%nat) →
  ∃ roomID st', generateRoomID st = (Some roomID, st').
Proof. intros Hlaw. apply generateRoomID_loop_total, Hlaw. Qed.

(** A run of [CreateRoom] that answers 200 went through every check: the
    body was bound, the name was valid, an ID was generated, and the store
    accepted the room. *)
Lemma CreateRoom_success_inv (h : RoomHandler) (c : Context) (st : St) (body : Body) :
  In (EvJSON http.StatusOK body) (events (CreateRoom h c st)) →
  ∃ args roomID st1 st2,
    Bind_CreateRoomArgs c = Some args ∧
    validateRoomName (RoomName args) = true ∧
    generateRoomID st = (Some roomID, st1) ∧
    Room_CreateRoom (room_built h c args roomID) st1 = (None, st2) ∧
    CreateRoom h c st =
      mkRun st2
        [EvRoomCreateRoom (room_built h c args roomID);
         EvJSON http.StatusOK
           (BodyCreateRoomResponse
              {| Created_RoomID := roomID; Created_RoomName := RoomName args;
                 Created_RTCRoom := roomID;
                 RTCRoomToken := generateRTCRoomToken roomID |})]
        Returned.
Proof.
  unfold CreateRoom, room_built.
  destruct (Bind_CreateRoomArgs c) as [args|]; simpl.
  2: { intros [Hin|[]]. discriminate Hin. }
  destruct (validateRoomName (RoomName args)) eqn:Hvalid; simpl.
  2: { intros [Hin|[]]. discriminate Hin. }
  destruct (generateRoomID st) as [[roomID|] st1]; simpl; [|intros []].
  destruct (Room_CreateRoom _ st1) as [[[serverErr|msg]|] st2] eqn:Hstore; simpl.
  - destruct (Code serverErr); simpl; intros [Hin|[Hin|[]]]; discriminate Hin.
  - intros [Hin|[Hin|[]]]; discriminate Hin.
  - intros _. exists args, roomID, st1, st2. auto.
Qed.

(** C7: in every successful [CreateRoom] exactly one room is handed to the
    store; it is Single, its creator is the caller, its name is the valid
    name of the request, its ID has 16 bytes, all of [alphaNum], and its
    play URL is ["rtmp://" + LiveHost + "/" + LiveHub + "/" + ID]. *)
Theorem CreateRoom_room_handed_to_storage
    (h : RoomHandler) (c : Context) (st : St) (body : Body) :
  In (EvJSON http.StatusOK body) (events (CreateRoom h c st)) →
  ∃ room,
    List.filter (λ e, match e with EvRoomCreateRoom _ => true | _ => false end)
      (events (CreateRoom h c st)) = [EvRoomCreateRoom room] ∧
    Status room = LiveRoomStatusSingle ∧
    Creator room = GetString_UserID c ∧
    Some {| RoomName := Name room |} = Bind_CreateRoomArgs c ∧
    validateRoomName (Name room) = true ∧
    String.length (ID room) = 16%nat ∧
    Forall (λ ch, In ch (list_ascii_of_string "0123456789abcdefghijklmnopqrstuvwxyz"))
      (list_ascii_of_string (ID room)) ∧
    PlayURL room = "rtmp://" +:+ LiveHost h +:+ "/" +:+ LiveHub h +:+ "/" +:+ ID room.
Proof.
  intros Hok.
  apply CreateRoom_success_inv in Hok
    as (args & roomID & st1 & st2 & Hbind & Hvalid & Hgen & Hstore & ->).
  apply generateRoomID_Some in Hgen as [Hlen Hall].
  exists (room_built h c args roomID).
  destruct args as [name]. rewrite Hbind.
  repeat split; try reflexivity; assumption.
Qed.

(** C10: the response of every successful [CreateRoom] carries the empty
    string as its RTC room token. *)
Theorem CreateRoom_RTCRoomToken_empty
    (h : RoomHandler) (c : Context) (st : St) (body : Body) :
  In (EvJSON http.StatusOK body) (events (CreateRoom h c st)) →
  ∃ resp, body = BodyCreateRoomResponse resp ∧ RTCRoomToken resp = "".
Proof.
  intros Hok. pose proof Hok as Hrun.
  apply CreateRoom_success_inv in Hrun
    as (args & roomID & st1 & st2 & _ & _ & _ & _ & Hrun).
  rewrite Hrun in Hok. destruct Hok as [Hin|[Hin|[]]]; [discriminate Hin|].
  injection Hin as <-. eexists. split; reflexivity.
Qed.

(** The status [CreateRoom] answers with when the store fails with a
    [ServerError], and the one [CloseRoom] answers with: each handler has
    its own switch, and what the switch does not name is answered 500. *)
Lemma CreateRoom_status_of_ServerError
    (h : RoomHandler) (c : Context) (st st1 st2 : St)
    (args : CreateRoomArgs) (roomID : string) (serverErr : ServerError) :
  Bind_CreateRoomArgs c = Some args →
  validateRoomName (RoomName args) = true →
  generateRoomID st = (Some roomID, st1) →
  Room_CreateRoom (room_built h c args roomID) st1 = (Some (IsServerError serverErr), st2) →
  statuses (CreateRoom h c st) =
    [match Code serverErr with
     | ServerErrorRoomNameUsed => 409
     | ServerErrorTooManyRooms => 503
     | _ => 500
     end].
Proof.
  intros Hbind Hvalid Hgen Hstore. unfold CreateRoom, room_built in *.
  rewrite Hbind, Hvalid. simpl. rewrite Hgen, Hstore.
  destruct (Code serverErr); reflexivity.
Qed.

Lemma CloseRoom_status_of_ServerError
    (h : RoomHandler) (c : Context) (st st1 : St)
    (args : CloseRoomArgs) (serverErr : ServerError) :
  Bind_CloseRoomArgs c = Some args →
  Room_CloseRoom (GetString_UserID c) (RoomID args) st = (Some (IsServerError serverErr), st1) →
  statuses (CloseRoom h c st) =
    [match Code serverErr with
     | ServerErrorRoomNotFound => 404
     | _ => 500
     end].
Proof.
  intros Hbind Hstore. unfold CloseRoom.
  rewrite Hbind, Hstore. destruct (Code serverErr); reflexivity.
Qed.

(** C4, as the code has it: on a [ServerError] of the store, [CreateRoom]
    answers 409 for RoomNameUsed, 503 for TooManyRooms and 500 for every
    other code; [CloseRoom] answers 404 for RoomNotFound and 500 for every
    other code, NoPermission among them. *)
Theorem room_handlers_status_table
    (h : RoomHandler) (c : Context) (st : St) (serverErr : ServerError) :
  (∀ args roomID st1 st2,
     Bind_CreateRoomArgs c = Some args →
     validateRoomName (RoomName args) = true →
     generateRoomID st = (Some roomID, st1) →
     Room_CreateRoom (room_built h c args roomID) st1
       = (Some (IsServerError serverErr), st2) →
     statuses (CreateRoom h c st) =
       [match Code serverErr with
        | ServerErrorRoomNameUsed => http.StatusConflict
        | ServerErrorTooManyRooms => http.StatusServiceUnavailable
        | _ => http.StatusInternalServerError
        end]) ∧
  (∀ args st1,
     Bind_CloseRoomArgs c = Some args →
     Room_CloseRoom (GetString_UserID c) (RoomID args) st
       = (Some (IsServerError serverErr), st1) →
     statuses (CloseRoom h c st) =
       [match Code serverErr with
        | ServerErrorRoomNotFound => http.StatusNotFound
        | _ => http.StatusInternalServerError
        end]).
Proof.
  split.
  - intros. eapply CreateRoom_status_of_ServerError; eassumption.
  - intros. eapply CloseRoom_status_of_ServerError; eassumption.
Qed.

(** With a source that keeps [Intn n] below [n], [CreateRoom] never
    panics: it always returns, and a request that is bound, carries a valid
    name and is accepted by the store is answered 200. *)
Lemma CreateRoom_returns (h : RoomHandler) (c : Context) (st : St) :
  (∀ k s, (0 < k)%nat → (fst (Intn k s) < k)%nat) →
  outcome (CreateRoom h c st) = Returned ∧
  (∀ args, Bind_CreateRoomArgs c = Some args →
           validateRoomName (RoomName args) = true →
           ∃ roomID st1,
             generateRoomID st = (Some roomID, st1) ∧
             (fst (Room_CreateRoom (room_built h c args roomID) st1) = None →
              statuses (CreateRoom h c st) = [http.StatusOK])).
Proof.
  intros Hlaw. destruct (generateRoomID_total st Hlaw) as (roomID & st1 & Hgen).
  unfold CreateRoom, room_built. rewrite Hgen. split.
  - destruct (Bind_CreateRoomArgs c) as [args|]; [|reflexivity].
    destruct (validateRoomName (RoomName args)); [|reflexivity]. simpl.
    destruct (Room_CreateRoom _ st1) as [[[serverErr|msg]|] st2]; try reflexivity.
    destruct (Code serverErr); reflexivity.
  - intros args -> ->. exists roomID, st1. split; [reflexivity|]. simpl.
    destruct (Room_CreateRoom _ st1) as [[err|] st2]; simpl; [discriminate|].
    reflexivity.
Qed.

(** Whatever the query says, [ListAllRooms] does nothing at all. *)
Lemma ListAllRooms_silent (h : RoomHandler) (c : Context) (st : St) :
  ListAllRooms h c st = mkRun st [] Returned.
Proof. reflexivity. Qed.

(** C1, as the code has it: without [can_pk=true] the handler [ListRooms]
    asks the store for nothing and writes nothing to the response. *)
Theorem ListRooms_writes_nothing (h : RoomHandler) (c : Context) (st : St) :
  String.eqb (Query_ c "can_pk") "true" = false →
  ListRooms h c st = mkRun st [] Returned.
Proof. intros Hq. unfold ListRooms. rewrite Hq. reflexivity. Qed.

(** With or without [can_pk], [ListRooms] never writes to the response. *)
Lemma ListRooms_never_writes (h : RoomHandler) (c : Context) (st : St) :
  written (ListRooms h c st) = [].
Proof.
  unfold ListRooms, written, ListCanPKRooms, ListAllRooms.
  destruct (String.eqb (Query_ c "can_pk") "true"); [|reflexivity].
  destruct (Room_ListPKRooms (GetString_UserID c) st) as [[rooms err] st1]. reflexivity.
Qed.

(** C3, as the code has it: [ListCanPKRooms] asks the store for the rooms
    the caller can PK with, and then returns without writing any of them
    to the response. *)
Theorem ListCanPKRooms_writes_nothing (h : RoomHandler) (c : Context) (st : St) :
  events (ListCanPKRooms h c st) = [EvRoomListPKRooms (GetString_UserID c)] ∧
  written (ListCanPKRooms h c st) = [] ∧
  outcome (ListCanPKRooms h c st) = Returned.
Proof.
  unfold written, ListCanPKRooms.
  destruct (Room_ListPKRooms (GetString_UserID c) st) as [[rooms err] st1].
  repeat split.
Qed.

End RoomHandlerFacts.

(** ** The room handler in a concrete world *)

Import world.

Lemma CreateRoom_room_handed_to_storage_witness :
  In (EvJSON http.StatusOK alice_created) (events (CreateRoom the_handler alice_creates empty_world)) ∧
  ∃ room,
    List.filter (λ e, match e with EvRoomCreateRoom _ => true | _ => false end)
      (events (CreateRoom the_handler alice_creates empty_world)) = [EvRoomCreateRoom room] ∧
    Status room = LiveRoomStatusSingle ∧
    Creator room = GetString_UserID alice_creates ∧
    Some {| RoomName := Name room |} = Bind_CreateRoomArgs alice_creates ∧
    validateRoomName (Name room) = true ∧
    String.length (ID room) = 16%nat ∧
    Forall (λ ch, In ch (list_ascii_of_string "0123456789abcdefghijklmnopqrstuvwxyz"))
      (list_ascii_of_string (ID room)) ∧
    PlayURL room =
      "rtmp://" +:+ LiveHost the_handler +:+ "/" +:+ LiveHub the_handler +:+ "/" +:+ ID room.
Proof.
  assert (Hok : In (EvJSON http.StatusOK alice_created)
                  (events (CreateRoom the_handler alice_creates empty_world))).
  { vm_compute. right. left. reflexivity. }
  split; [exact Hok|].
  exact (CreateRoom_room_handed_to_storage the_handler alice_creates empty_world alice_created Hok).
Defined.

Lemma CreateRoom_RTCRoomToken_empty_witness :
  In (EvJSON http.StatusOK alice_created) (events (CreateRoom the_handler alice_creates empty_world)) ∧
  ∃ resp, alice_created = BodyCreateRoomResponse resp ∧ RTCRoomToken resp = "".
Proof.
  assert (Hok : In (EvJSON http.StatusOK alice_created)
                  (events (CreateRoom the_handler alice_creates empty_world))).
  { vm_compute. right. left. reflexivity. }
  split; [exact Hok|].
  exact (CreateRoom_RTCRoomToken_empty the_handler alice_creates empty_world alice_created Hok).
Defined.

(** The source of [world] keeps [Intn n] below [n]. *)
Lemma World_Intn_lt (k : nat) (w : World) : (0 < k)%nat → (fst (Intn k w) < k)%nat.
Proof.
  intros Hk. simpl.
  pose proof (Z.mod_pos_bound (seed w) (Z.of_nat k) ltac:(lia)). lia.
Qed.

(** C4, against the table of the spec: bob's room is closed by alice, the
    store refuses with NoPermission, and the handler answers 500 where the
    table has 403. *)
Lemma CloseRoom_NoPermission_answers_500 :
  Bind_CloseRoomArgs alice_closes_r1 = Some {| RoomID := "r1" |} ∧
  fst (Room_CloseRoom (GetString_UserID alice_closes_r1) "r1" bob_world)
    = Some (IsServerError {| Code := ServerErrorNoPermission; Summary := "no permission" |}) ∧
  statuses (CloseRoom the_handler alice_closes_r1 bob_world) = [500] ∧
  taxonomy_status ServerErrorNoPermission = 403 ∧
  statuses (CloseRoom the_handler alice_closes_r1 bob_world)
    ≠ [taxonomy_status ServerErrorNoPermission].
Proof.
  repeat split; try (vm_compute; reflexivity).
  vm_compute. intros Heq. discriminate Heq.
Qed.

Lemma room_handlers_status_table_witness :
  statuses (CreateRoom the_handler alice_creates_taken bob_world) = [409] ∧
  statuses (CloseRoom the_handler alice_closes_r1 bob_world) = [500].
Proof.
  pose proof (room_handlers_status_table the_handler alice_creates_taken bob_world
                {| Code := ServerErrorRoomNameUsed; Summary := "room name used" |}) as [Hcreate _].
  pose proof (room_handlers_status_table the_handler alice_closes_r1 bob_world
                {| Code := ServerErrorNoPermission; Summary := "no permission" |}) as [_ Hclose].
  split.
  - eapply (Hcreate {| RoomName := "bob_stream" |}); vm_compute; reflexivity.
  - eapply (Hclose {| RoomID := "r1" |}); vm_compute; reflexivity.
Defined.

(** In [bob_world] the store has one room to list, and the handler lists
    none. *)
Lemma ListRooms_writes_nothing_witness :
  RoomLifecycle.ListRooms (rooms bob_world) = [room_of "r1" "bob_stream" "bob"] ∧
  String.eqb (Query_ alice_lists "can_pk") "true" = false ∧
  ListRooms the_handler alice_lists bob_world = mkRun bob_world [] Returned.
Proof.
  split; [vm_compute; reflexivity|].
  split; [vm_compute; reflexivity|].
  apply (ListRooms_writes_nothing the_handler alice_lists bob_world).
  vm_compute; reflexivity.
Defined.

(** In [bob_world] the store gives the handler bob's room as a candidate
    for alice, and the response stays empty. *)
Example ListCanPKRooms_bob_world :
  fst (Room_ListPKRooms "alice" bob_world) = ([room_of "r1" "bob_stream" "bob"], None) ∧
  written (ListRooms the_handler alice_lists_can_pk bob_world) = [].
Proof. split; vm_compute; reflexivity. Qed.

(** ** The pattern of the account handler *)

Section RegexpFacts.
Import regexp.

(** After [n] rounds, the remainders are those of [Repeat r n]. *)
Lemma match_prefix_Repeat (r : Regexp) (n : nat) (s : string) :
  match_prefix (Repeat r n) s = Nat.iter n (flat_map (match_prefix r)) [s].
Proof. reflexivity. Qed.

(** [match_prefix] is sound and complete for the language of the pattern:
    its remainders are exactly what follows a match at the start. *)
Lemma match_prefix_spec (r : Regexp) :
  ∀ s rest, In rest (match_prefix r s) ↔ ∃ m, matches r m ∧ s = m +:+ rest.
Proof.
  induction r as [c | lo hi | r1 IH1 r2 IH2 | r IH n]; intros s rest.
  - simpl. destruct s as [|a s].
    + split; [intros [] | intros (m & Hm & Heq)]. inversion Hm; subst. discriminate Heq.
    + destruct (Ascii.eqb_spec a c) as [->|Hne]; simpl.
      * split.
        -- intros [<-|[]]. exists (String c ""). split; [constructor | reflexivity].
        -- intros (m & Hm & Heq). inversion Hm; subst.
           rewrite append_cons, append_nil_l in Heq. injection Heq as ->. auto.
      * split; [intros [] | intros (m & Hm & Heq)]. inversion Hm; subst.
        rewrite append_cons in Heq. injection Heq as Hac _. congruence.
  - simpl. destruct s as [|a s].
    + split; [intros [] | intros (m & Hm & Heq)]. inversion Hm; subst. discriminate Heq.
    + destruct (in_class lo hi a) eqn:Hcls; simpl.
      * split.
        -- intros [<-|[]]. exists (String a ""). split; [constructor; assumption | reflexivity].
        -- intros (m & Hm & Heq). inversion Hm; subst.
           rewrite append_cons, append_nil_l in Heq. injection Heq as _ ->. auto.
      * split; [intros [] | intros (m & Hm & Heq)]. inversion Hm; subst.
        rewrite append_cons in Heq. injection Heq as -> _. congruence.
  - simpl. rewrite in_flat_map. split.
    + intros (mid & Hmid & Hrest).
      apply IH1 in Hmid as (m1 & Hm1 & ->). apply IH2 in Hrest as (m2 & Hm2 & ->).
      exists (m1 +:+ m2). split; [constructor; assumption | apply eq_sym, append_assoc].
    + intros (m & Hm & ->). inversion Hm; subst.
      exists (m2 +:+ rest). split.
      * apply IH1. exists m1. split; [assumption | apply append_assoc].
      * apply IH2. exists m2. auto.
  - rewrite match_prefix_Repeat. revert rest.
    induction n as [|n IHn]; intros rest.
    + simpl. split.
      * intros [<-|[]]. exists "". split; [constructor | reflexivity].
      * intros (m & Hm & ->). inversion Hm; subst. left. reflexivity.
    + simpl. rewrite in_flat_map. split.
      * intros (mid & Hmid & Hrest).
        apply IHn in Hmid as (m1 & Hm1 & ->). apply IH in Hrest as (m2 & Hm2 & ->).
        exists (m1 +:+ m2). split; [constructor; assumption | apply eq_sym, append_assoc].
      * intros (m & Hm & ->). inversion Hm; subst.
        exists (m2 +:+ rest). split.
        -- apply IHn. exists m1. split; [assumption | apply append_assoc].
        -- apply IH. exists m2. auto.
Qed.

Lemma matches_here_spec (r : Regexp) (s : string) :
  matches_here r s = true ↔ ∃ m post, matches r m ∧ s = m +:+ post.
Proof.
  unfold matches_here. split.
  - destruct (match_prefix r s) as [|rest l] eqn:Hpre; [discriminate|]. intros _.
    destruct (proj1 (match_prefix_spec r s rest)) as (m & Hm & Heq).
    { rewrite Hpre. left. reflexivity. }
    eauto.
  - intros (m & post & Hm & Heq).
    assert (Hin : In post (match_prefix r s)) by (apply match_prefix_spec; eauto).
    destruct (match_prefix r s); [destruct Hin | reflexivity].
Qed.

(** [MatchString] accepts exactly the strings that contain a match. *)
Lemma MatchString_spec (r : Regexp) (s : string) :
  MatchString r s = true ↔ ∃ pre m post, matches r m ∧ s = pre +:+ m +:+ post.
Proof.
  induction s as [|a s IH].
  - simpl. rewrite orb_false_r, matches_here_spec. split.
    + intros (m & post & Hm & Heq). exists "", m, post. auto.
    + intros (pre & m & post & Hm & Heq). destruct pre; [|discriminate Heq]. eauto.
  - simpl. rewrite orb_true_iff, matches_here_spec, IH. split.
    + intros [(m & post & Hm & Heq) | (pre & m & post & Hm & Heq)].
      * exists "", m, post. auto.
      * exists (String a pre), m, post. rewrite append_cons, <- Heq. auto.
    + intros (pre & m & post & Hm & Heq). destruct pre as [|b pre].
      * left. eauto.
      * right. rewrite append_cons in Heq. injection Heq as _ Heq. eauto.
Qed.

Lemma iter_flat_map_nil {A : Type} (f : A → list A) (n : nat) :
  Nat.iter n (flat_map f) [] = [].
Proof. induction n as [|n IH]; [reflexivity|]. simpl. rewrite IH. reflexivity. Qed.

(** The remainders of [n] bytes of a class: what follows [n] leading bytes
    that are all in the class. *)
Lemma iter_Class_spec (lo hi : ascii) (n : nat) :
  ∀ s rest,
    In rest (Nat.iter n (flat_map (match_prefix (Class lo hi))) [s]) ↔
    ∃ m, s = m +:+ rest ∧ String.length m = n ∧
         forallb (in_class lo hi) (list_ascii_of_string m) = true.
Proof.
  induction n as [|n IH]; intros s rest.
  - simpl. split.
    + intros [<-|[]]. exists "". auto.
    + intros (m & -> & Hlen & _). destruct m; [left; reflexivity | discriminate Hlen].
  - rewrite Nat.iter_succ_r.
    change (flat_map (match_prefix (Class lo hi)) [s])
      with (match_prefix (Class lo hi) s ++ [])%list.
    rewrite app_nil_r. destruct s as [|a s]; simpl match_prefix.
    + rewrite iter_flat_map_nil. split; [intros []|].
      intros (m & Heq & Hlen & _). destruct m; discriminate.
    + destruct (in_class lo hi a) eqn:Hcls.
      * rewrite IH. split.
        -- intros (m & -> & Hlen & Hall). exists (String a m).
           split; [reflexivity|]. split; [simpl; lia|]. simpl. rewrite Hcls. exact Hall.
        -- intros (m & Heq & Hlen & Hall). destruct m as [|b m]; [discriminate Hlen|].
           rewrite append_cons in Heq. injection Heq as <- ->.
           simpl in Hall. rewrite Hcls in Hall.
           exists m. split; [reflexivity|]. split; [simpl in Hlen; lia | exact Hall].
      * rewrite iter_flat_map_nil. split; [intros []|].
        intros (m & Heq & Hlen & Hall). destruct m as [|b m]; [discriminate Hlen|].
        rewrite append_cons in Heq. injection Heq as <- _.
        simpl in Hall. rewrite Hcls in Hall. discriminate Hall.
Qed.

Lemma matches_Repeat_Class (lo hi : ascii) (n : nat) (m : string) :
  matches (Repeat (Class lo hi) n) m ↔
  String.length m = n ∧ forallb (in_class lo hi) (list_ascii_of_string m) = true.
Proof.
  split.
  - intros Hm.
    assert (Hin : In "" (match_prefix (Repeat (Class lo hi) n) m)).
    { apply match_prefix_spec. exists m. rewrite append_nil_r. auto. }
    rewrite match_prefix_Repeat in Hin.
    apply iter_Class_spec in Hin as (m' & -> & Hlen & Hall).
    rewrite append_nil_r. auto.
  - intros [Hlen Hall].
    assert (Hin : In "" (match_prefix (Repeat (Class lo hi) n) m)).
    { rewrite match_prefix_Repeat. apply iter_Class_spec.
      exists m. rewrite append_nil_r. auto. }
    apply match_prefix_spec in Hin as (m' & Hm' & ->).
    rewrite append_nil_r. exact Hm'.
Qed.

Lemma length_list_ascii (s : string) :
  length (list_ascii_of_string s) = String.length s.
Proof. induction s as [|a s IH]; simpl; congruence. Qed.

(** The language of the handler's pattern is the set of well-formed mobile
    numbers. *)
Lemma matches_phoneNumberRegExp (m : string) :
  matches phoneNumberRegExp m ↔ well_formed_mobile m = true.
Proof.
  unfold phoneNumberRegExp, well_formed_mobile. split.
  - intros Hm. inversion Hm as [| | r1 r2 m1 m23 H1 H23 | |]; subst.
    inversion H1; subst.
    inversion H23 as [| | r1 r2 m2 m3 H2 H3 | |]; subst.
    inversion H2; subst.
    apply matches_Repeat_Class in H3 as [Hlen Hall].
    rewrite !append_cons, !append_nil_l. simpl.
    rewrite Hall, length_list_ascii, Hlen.
    match goal with Hc : in_class _ _ _ = true |- _ => rewrite Hc end.
    reflexivity.
  - destruct m as [|c1 [|c2 m3]]; simpl; try discriminate.
    rewrite !andb_true_iff, length_list_ascii.
    intros [[[Hc1 Hc2] Hall] Hlen].
    apply Ascii.eqb_eq in Hc1 as ->. apply Nat.eqb_eq in Hlen.
    change (String "1" (String c2 m3)) with (String "1" "" +:+ (String c2 "" +:+ m3)).
    constructor; [constructor|].
    constructor; [constructor; exact Hc2|].
    apply matches_Repeat_Class. auto.
Qed.

End RegexpFacts.

(** ** The account handler *)

(** [validatePhoneNumber] accepts a string exactly when a well-formed
    mobile number occurs somewhere inside it. *)
Lemma validatePhoneNumber_spec (s : string) :
  validatePhoneNumber s = true ↔
  ∃ pre num post, well_formed_mobile num = true ∧ s = pre +:+ num +:+ post.
Proof.
  unfold validatePhoneNumber. rewrite MatchString_spec. split.
  - intros (pre & m & post & Hm & ->). exists pre, m, post.
    split; [apply matches_phoneNumberRegExp, Hm | reflexivity].
  - intros (pre & m & post & Hm & ->). exists pre, m, post.
    split; [apply matches_phoneNumberRegExp, Hm | reflexivity].
Qed.

Section AccountHandlerFacts.
Context {St : Type} `{AccountInterface St} `{SMSCodeInterface St}.

(** A number that [validatePhoneNumber] refuses is answered 400 and the
    gateway is not called. *)
Lemma SendSMSCode_rejects (c : Context) (st : St) (s : string) :
  Query c !! "phone_number" = Some s →
  validatePhoneNumber s = false →
  SendSMSCode c st =
    mkRun st
      [EvJSON http.StatusBadRequest
         (BodyHTTPError (WithMessage "invalid phone number"
                           (WithRequestID (ReqId c) (NewHTTPError InvalidPhoneNumber))))]
      Returned.
Proof.
  intros Hq Hbad. unfold SendSMSCode, GetQuery. rewrite Hq. simpl. rewrite Hbad. reflexivity.
Qed.

(** C5, as the code has it: a string that only contains a well-formed
    number, with anything before or after it, passes the check and is
    handed to the SMS gateway as it is. *)
Theorem SendSMSCode_dispatches_on_embedded_number
    (c : Context) (st : St) (pre num post : string) :
  Query c !! "phone_number" = Some (pre +:+ num +:+ post) →
  well_formed_mobile num = true →
  ∃ answer, events (SendSMSCode c st) = [EvSMSSend (pre +:+ num +:+ post); answer].
Proof.
  intros Hq Hnum.
  assert (Hvalid : validatePhoneNumber (pre +:+ num +:+ post) = true).
  { apply validatePhoneNumber_spec. eauto. }
  unfold SendSMSCode, GetQuery. rewrite Hq. simpl. rewrite Hvalid. simpl.
  destruct (Send (pre +:+ num +:+ post) st) as [[[[code summary]|msg]|] st1]; simpl.
  - destruct code; eexists; reflexivity.
  - eexists; reflexivity.
  - eexists; reflexivity.
Qed.

(** C6, as the code has it: without a user ID in the context [Logout]
    writes its 401 and goes on to the type assertion, which panics; the
    account interface is not called. *)
Theorem Logout_without_user_id_panics (c : Context) (st : St) :
  UserID c = None →
  Logout c st =
    mkRun st
      [EvJSON http.StatusUnauthorized
         (BodyHTTPError (WithRequestID (ReqId c) (NewHTTPError NotLoggedIn)))]
      (Panicked "interface conversion: interface {} is not string").
Proof.
  intros Hid. unfold Logout, Get_UserID. rewrite Hid. reflexivity.
Qed.

(** With a string as user ID, [Logout] calls the account interface and
    answers 200 at the end. *)
Lemma Logout_with_user_id (c : Context) (st : St) (id : string) :
  UserID c = Some (VString id) →
  outcome (Logout c st) = Returned ∧
  In (EvAccountLogout id) (events (Logout c st)) ∧
  state (Logout c st) = snd (AccountLogout id st).
Proof.
  intros Hid. unfold Logout, Get_UserID. rewrite Hid. simpl.
  destruct (AccountLogout id st) as [err st1]. simpl. auto.
Qed.

End AccountHandlerFacts.

Lemma SendSMSCode_dispatches_on_embedded_number_witness :
  Query padded_phone_number !! "phone_number" = Some ("a" +:+ "13812345678" +:+ "") ∧
  well_formed_mobile "13812345678" = true ∧
  well_formed_mobile "a13812345678" = false ∧
  ∃ answer,
    events (SendSMSCode padded_phone_number bob_world)
      = [EvSMSSend ("a" +:+ "13812345678" +:+ ""); answer].
Proof.
  split; [vm_compute; reflexivity|].
  split; [vm_compute; reflexivity|].
  split; [vm_compute; reflexivity|].
  apply (SendSMSCode_dispatches_on_embedded_number padded_phone_number bob_world
           "a" "13812345678" ""); vm_compute; reflexivity.
Defined.

(** The same request, evaluated: the code goes out to the padded string and
    the caller is told 200. *)
Example SendSMSCode_padded_phone_number :
  events (SendSMSCode padded_phone_number bob_world)
    = [EvSMSSend "a13812345678"; EvJSON 200 (BodyString "")] ∧
  sms_sent (state (SendSMSCode padded_phone_number bob_world)) = ["a13812345678"].
Proof. split; vm_compute; reflexivity. Qed.

Lemma Logout_without_user_id_panics_witness :
  UserID anonymous_logout = None ∧
  Logout anonymous_logout bob_world =
    mkRun bob_world
      [EvJSON http.StatusUnauthorized
         (BodyHTTPError (WithRequestID (ReqId anonymous_logout) (NewHTTPError NotLoggedIn)))]
      (Panicked "interface conversion: interface {} is not string").
Proof.
  split; [reflexivity|].
  apply (Logout_without_user_id_panics anonymous_logout bob_world). reflexivity.
Defined.

(** ** Token lookup *)

Section AuthControllerFacts.
Import qmgo controller.

Lemma One_inl_inv (coll : Collection) (token : string) (doc : ActiveUser) :
  One coll token (inl doc) → In doc coll ∧ Token doc = token.
Proof. intros Hone. inversion Hone; subst. auto. Qed.

Lemma One_ErrNoDocuments_inv (coll : Collection) (token : string) :
  One coll token (inr ErrNoDocuments) → ∀ doc, In doc coll → Token doc ≠ token.
Proof. intros Hone. inversion Hone; subst. assumption. Qed.

(** With tokens that are unique in the collection, one record at most
    carries a token. *)
Lemma token_unique (coll : Collection) (doc1 doc2 : ActiveUser) :
  List.NoDup (map Token coll) → In doc1 coll → In doc2 coll →
  Token doc1 = Token doc2 → doc1 = doc2.
Proof.
  induction coll as [|d rest IH]; simpl; intros Hnodup H1 H2 Htok; [destruct H1|].
  apply List.NoDup_cons_iff in Hnodup as [Hfresh Hnodup].
  destruct H1 as [->|H1], H2 as [->|H2]; auto.
  - exfalso. apply Hfresh. rewrite Htok. apply in_map, H2.
  - exfalso. apply Hfresh. rewrite <- Htok. apply in_map, H1.
Qed.

(** C8, as the code has it: for every answer the query can give,
    [GetIDByToken] leaves the collection as it was; it returns an ID
    without error exactly when the query found a record, and the ID is
    that of a stored record with the token (of the record, when tokens are
    unique), whatever its [IssuedAt]; an error of the query is returned as
    it is, with the empty ID: that is the case when no record carries the
    token, and also when the driver fails although one does.  When the
    driver does not fail, an ID is returned exactly when a record with the
    token exists. *)
Theorem GetIDByToken_spec (c : AuthController) (token : string)
    (answer : ActiveUser + Error) :
  One (activeUserColl c) token answer →
  snd (GetIDByToken c token answer) = c ∧
  (∀ id, fst (GetIDByToken c token answer) = (id, None) ↔
         ∃ doc, answer = inl doc ∧ In doc (activeUserColl c) ∧
                Token doc = token ∧ User_ID doc = id) ∧
  (∀ err, answer = inr err → fst (GetIDByToken c token answer) = ("", Some err)) ∧
  ((∀ doc, In doc (activeUserColl c) → Token doc ≠ token) →
   ∃ err, fst (GetIDByToken c token answer) = ("", Some err)) ∧
  ((∀ msg, answer ≠ inr (DriverError msg)) →
   ((∃ id, fst (GetIDByToken c token answer) = (id, None)) ↔
    ∃ doc, In doc (activeUserColl c) ∧ Token doc = token)) ∧
  (List.NoDup (map Token (activeUserColl c)) →
   ∀ doc id, In doc (activeUserColl c) → Token doc = token →
             fst (GetIDByToken c token answer) = (id, None) → id = User_ID doc).
Proof.
  intros Hone. unfold GetIDByToken.
  destruct answer as [found|err].
  - apply One_inl_inv in Hone as [Hin Htok]. cbn [fst snd].
    split; [reflexivity|]. split; [|split; [|split; [|split]]].
    + intros id. split.
      * intros [= <-]. exists found. auto.
      * intros (doc & [= <-] & _ & _ & <-). reflexivity.
    + intros err Herr. discriminate Herr.
    + intros Hnone. exfalso. exact (Hnone found Hin Htok).
    + intros _. split; eauto.
    + intros Hnodup doc id Hdoc Hdoctok [= <-].
      rewrite (token_unique _ doc found Hnodup Hdoc Hin); [reflexivity | congruence].
  - assert (Hout : (if negb (IsErrNoDocuments err) then ("", Some err, c)
                    else ("", Some err, c)) = ("", Some err, c)).
    { destruct (negb (IsErrNoDocuments err)); reflexivity. }
    rewrite Hout. cbn [fst snd].
    split; [reflexivity|]. split; [|split; [|split; [|split]]].
    + intros id. split; [intros Hid; discriminate Hid|].
      intros (doc & Hdoc & _). discriminate Hdoc.
    + intros err' [= <-]. reflexivity.
    + intros _. eauto.
    + intros Hnofault. split; [intros [id Hid]; discriminate Hid|].
      intros (doc & Hin & Htok). exfalso. destruct err as [|msg].
      * exact (One_ErrNoDocuments_inv _ _ Hone doc Hin Htok).
      * exact (Hnofault msg eq_refl).
    + intros _ doc id _ _ Hid. discriminate Hid.
Qed.

End AuthControllerFacts.

Lemma GetIDByToken_spec_witness :
  qmgo.One (controller.activeUserColl two_sessions) "tok-b"
    (inl {| User_ID := "bob"; Token := "tok-b"; IssuedAt := 2 |}) ∧
  snd (controller.GetIDByToken two_sessions "tok-b"
         (inl {| User_ID := "bob"; Token := "tok-b"; IssuedAt := 2 |})) = two_sessions ∧
  ((∃ id, fst (controller.GetIDByToken two_sessions "tok-b"
                 (inl {| User_ID := "bob"; Token := "tok-b"; IssuedAt := 2 |})) = (id, None)) ↔
   ∃ doc, In doc (controller.activeUserColl two_sessions) ∧ Token doc = "tok-b").
Proof.
  assert (Hone : qmgo.One (controller.activeUserColl two_sessions) "tok-b"
                   (inl {| User_ID := "bob"; Token := "tok-b"; IssuedAt := 2 |})).
  { constructor; [simpl; right; left; reflexivity | reflexivity]. }
  split; [exact Hone|].
  destruct (GetIDByToken_spec two_sessions "tok-b" _ Hone)
    as (Hsame & _ & _ & _ & Hexact & _).
  split; [exact Hsame|].
  apply Hexact. intros msg Heq. discriminate Heq.
Defined.

(** C8, against the claim: alice's record carries the token, and the
    query may still fail in the driver, and then [GetIDByToken] returns
    the error instead of her ID; and with a time to live of an hour, a
    day after her login no record with the token is left that is not
    expired, and [GetIDByToken] returns her ID all the same. *)
Lemma GetIDByToken_not_exactly_when_record_exists :
  In {| User_ID := "alice"; Token := "tok-a"; IssuedAt := 1 |}
     (controller.activeUserColl two_sessions) ∧
  controller.expired 3600 10 {| User_ID := "alice"; Token := "tok-a"; IssuedAt := 1 |} = false ∧
  qmgo.One (controller.activeUserColl two_sessions) "tok-a"
    (inr (qmgo.DriverError "connection reset")) ∧
  fst (controller.GetIDByToken two_sessions "tok-a"
         (inr (qmgo.DriverError "connection reset")))
    = ("", Some (qmgo.DriverError "connection reset")) ∧
  (∀ doc, In doc (controller.activeUserColl two_sessions) → Token doc = "tok-a" →
          controller.expired 3600 86401 doc = true) ∧
  qmgo.One (controller.activeUserColl two_sessions) "tok-a"
    (inl {| User_ID := "alice"; Token := "tok-a"; IssuedAt := 1 |}) ∧
  fst (controller.GetIDByToken two_sessions "tok-a"
         (inl {| User_ID := "alice"; Token := "tok-a"; IssuedAt := 1 |}))
    = ("alice", None).
Proof.
  split; [simpl; left; reflexivity|].
  split; [reflexivity|].
  split; [constructor|].
  split; [reflexivity|].
  split.
  { simpl. intros doc [<-|[<-|[]]] Htok; [reflexivity | discriminate Htok]. }
  split; [constructor; [simpl; left; reflexivity | reflexivity] | reflexivity].
Qed.

(** ** The room life cycle *)

Section RoomLifecycleFacts.
Import RoomLifecycle.
Variable capacity : nat.

Lemma keyed_empty : keyed ∅.
Proof. intros k r Hk. rewrite lookup_empty in Hk. discriminate Hk. Qed.

Lemma partner_symmetric_empty : partner_symmetric ∅.
Proof. intros a ra b Ha. rewrite lookup_empty in Ha. discriminate Ha. Qed.

Lemma with_status_ID (r : LiveRoom) (s : LiveRoomStatus) (p : option string) :
  ID (with_status r s p) = ID r.
Proof. reflexivity. Qed.

(** *** CreateRoom *)

Lemma CreateRoom_keyed (room : LiveRoom) (m : Rooms) :
  keyed m → keyed (snd (CreateRoom capacity room m)).
Proof.
  intros Hkeyed. unfold CreateRoom.
  destruct (name_in_use (Name room) m); [exact Hkeyed|].
  destruct (capacity <=? length (open_rooms m))%nat; [exact Hkeyed|].
  destruct (m !! ID room) eqn:Hfree; [exact Hkeyed|]. simpl.
  intros k r. rewrite lookup_insert. case_decide as Hk.
  - intros [= <-]. exact Hk.
  - apply Hkeyed.
Qed.

Lemma CreateRoom_partner_symmetric (room : LiveRoom) (m : Rooms) :
  partner_symmetric m → partner_symmetric (snd (CreateRoom capacity room m)).
Proof.
  intros Hsym. unfold CreateRoom.
  destruct (name_in_use (Name room) m); [exact Hsym|].
  destruct (capacity <=? length (open_rooms m))%nat; [exact Hsym|].
  destruct (m !! ID room) eqn:Hfree; [exact Hsym|]. simpl.
  intros a ra b. rewrite lookup_insert. case_decide as Ha.
  - intros [= <-]. simpl. intros Hnone. discriminate Hnone.
  - intros Hra Hp. destruct (Hsym a ra b Hra Hp) as (rb & Hrb & Hback & Hsa & Hsb).
    exists rb. rewrite lookup_insert_ne by congruence. auto.
Qed.

(** *** RequestPK *)

Lemma RequestPK_keyed (x y : string) (m : Rooms) :
  keyed m → keyed (snd (RequestPK x y m)).
Proof.
  intros Hkeyed. unfold RequestPK.
  destruct (m !! x) as [a|] eqn:Hx; [|exact Hkeyed].
  destruct (m !! y) as [b|] eqn:Hy; [|exact Hkeyed].
  destruct (is_closed a || is_closed b); [exact Hkeyed|].
  destruct (is_single a && is_single b); [|exact Hkeyed]. simpl.
  intros k r. rewrite !lookup_insert. repeat case_decide.
  - intros [= <-]. rewrite with_status_ID. subst. eauto.
  - intros [= <-]. rewrite with_status_ID. subst. eauto.
  - apply Hkeyed.
Qed.

Lemma RequestPK_partner_symmetric (x y : string) (m : Rooms) :
  partner_symmetric m → partner_symmetric (snd (RequestPK x y m)).
Proof.
  intros Hsym. unfold RequestPK.
  destruct (m !! x) as [a|] eqn:Hx; [|exact Hsym].
  destruct (m !! y) as [b|] eqn:Hy; [|exact Hsym].
  destruct (is_closed a || is_closed b); [exact Hsym|].
  destruct (is_single a && is_single b) eqn:Hsingle; [|exact Hsym]. simpl.
  apply andb_true_iff in Hsingle as [Hsa Hsb].
  apply bool_decide_eq_true in Hsa, Hsb.
  intros k rk p. rewrite lookup_insert. case_decide as Hky.
  - (* the target: its partner is the caller *)
    intros [= <-]. simpl. intros [= <-]. subst k.
    rewrite lookup_insert. case_decide as Hyx.
    + eexists. split; [reflexivity|]. subst. auto.
    + rewrite lookup_insert_eq. eexists. split; [reflexivity|]. auto.
  - rewrite lookup_insert. case_decide as Hkx.
    + (* the caller: its partner is the target *)
      intros [= <-]. simpl. intros [= <-]. subst k.
      rewrite lookup_insert_eq. eexists. split; [reflexivity|]. auto.
    + (* any other room keeps its partner, which is neither of the two *)
      intros Hk Hp. destruct (Hsym k rk p Hk Hp) as (rp & Hrp & Hback & Hsk & Hsp).
      exists rp. rewrite !lookup_insert_ne; [auto| |].
      * intros <-. rewrite Hx in Hrp. injection Hrp as <-. congruence.
      * intros <-. rewrite Hy in Hrp. injection Hrp as <-. congruence.
Qed.

(** *** CloseRoom *)

Lemma CloseRoom_keyed (u x : string) (m : Rooms) :
  keyed m → keyed (snd (CloseRoom u x m)).
Proof.
  intros Hkeyed. unfold CloseRoom.
  destruct (m !! x) as [a|] eqn:Hx; [|exact Hkeyed].
  destruct (negb (String.eqb (Creator a) u)); [exact Hkeyed|]. simpl.
  intros k r. rewrite lookup_insert. case_decide as Hk.
  - intros [= <-]. rewrite with_status_ID. subst. eauto.
  - destruct (Status a), (PartnerRoomID a) as [p|]; try apply Hkeyed.
    rewrite lookup_alter. case_decide as Hp; [|apply Hkeyed].
    intros Hr. apply fmap_Some in Hr as (old & Hold & ->).
    rewrite with_status_ID. subst k. exact (Hkeyed _ _ Hold).
Qed.

Lemma CloseRoom_partner_symmetric (u x : string) (m : Rooms) :
  partner_symmetric m → partner_symmetric (snd (CloseRoom u x m)).
Proof.
  intros Hsym. unfold CloseRoom.
  destruct (m !! x) as [a|] eqn:Hx; [|exact Hsym].
  destruct (negb (String.eqb (Creator a) u)); [exact Hsym|]. simpl.
  (* a room that still names the closed one would be named back by it *)
  assert (Hother : ∀ k rk p, k ≠ x → m !! k = Some rk → PartnerRoomID rk = Some p →
                     p = x → PartnerRoomID a = Some k ∧ Status a = LiveRoomStatusPKConnected).
  { intros k rk p _ Hk Hp ->. destruct (Hsym k rk x Hk Hp) as (rx & Hrx & Hback & _ & Hsx).
    rewrite Hx in Hrx. injection Hrx as <-. auto. }
  intros k rk p. rewrite lookup_insert. case_decide as Hkx.
  - intros [= <-]. simpl. intros Hnone. discriminate Hnone.
  - destruct (Status a) eqn:Hsa, (PartnerRoomID a) as [q|] eqn:Hqa;
      try (intros Hk Hp; destruct (Hsym k rk p Hk Hp) as (rp & Hrp & Hback & Hsk & Hsp);
           exists rp; rewrite lookup_insert_ne; [auto|];
           intros <-; destruct (Hother k rk x ltac:(congruence) Hk Hp eq_refl); congruence).
    (* the closed room was paired with [q] *)
    rewrite lookup_alter. case_decide as Hkq.
    + intros Hr. apply fmap_Some in Hr as (old & Hold & ->).
      simpl. intros Hnone. discriminate Hnone.
    + intros Hk Hp. destruct (Hsym k rk p Hk Hp) as (rp & Hrp & Hback & Hsk & Hsp).
      exists rp. rewrite lookup_insert_ne.
      * rewrite lookup_alter_ne; [auto|].
        intros <-. destruct (Hsym x a q Hx Hqa) as (rq & Hrq & Hqback & _ & _).
        rewrite Hrp in Hrq. injection Hrq as <-. congruence.
      * intros <-. destruct (Hother k rk x ltac:(congruence) Hk Hp eq_refl). congruence.
Qed.

(** *** Every reachable collection *)

Lemma reachable_keyed (m : Rooms) : reachable capacity m → keyed m.
Proof.
  induction 1 as [|op m Hreach IH]; [apply keyed_empty|].
  destruct op; simpl.
  - apply CreateRoom_keyed, IH.
  - apply RequestPK_keyed, IH.
  - apply CloseRoom_keyed, IH.
Qed.

Lemma reachable_symmetric (m : Rooms) : reachable capacity m → partner_symmetric m.
Proof.
  induction 1 as [|op m Hreach IH]; [apply partner_symmetric_empty|].
  destruct op; simpl.
  - apply CreateRoom_partner_symmetric, IH.
  - apply RequestPK_partner_symmetric, IH.
  - apply CloseRoom_partner_symmetric, IH.
Qed.

Lemma run_reachable (ops : list Op) (m : Rooms) :
  reachable capacity m → reachable capacity (run capacity ops m).
Proof.
  revert m. induction ops as [|op ops IH]; intros m Hm; [exact Hm|].
  simpl. apply IH. constructor. exact Hm.
Qed.

Lemma all_rooms_lookup (m : Rooms) (r : LiveRoom) :
  In r (all_rooms m) ↔ ∃ k, m !! k = Some r.
Proof.
  unfold all_rooms. rewrite <- list_elem_of_In, list_elem_of_fmap. split.
  - intros ([k r'] & -> & Hin). exists k. apply elem_of_map_to_list in Hin. exact Hin.
  - intros (k & Hk). exists (k, r). split; [reflexivity|]. apply elem_of_map_to_list. exact Hk.
Qed.

Lemma reachable_lookup_ID (m : Rooms) (r : LiveRoom) :
  reachable capacity m → In r (all_rooms m) → m !! ID r = Some r.
Proof.
  intros Hreach Hin. apply all_rooms_lookup in Hin as [k Hk].
  rewrite (reachable_keyed m Hreach k r Hk). exact Hk.
Qed.

(** A PKConnected room cannot enter another pairing, from either side:
    the request fails and the collection stays as it is. *)
Lemma RequestPK_paired_refused (m : Rooms) (x y : string) (a : LiveRoom) :
  m !! x = Some a → Status a = LiveRoomStatusPKConnected →
  (∃ f, RequestPK x y m = (Some f, m)) ∧ (∃ f, RequestPK y x m = (Some f, m)).
Proof.
  intros Hx Hsa.
  assert (Hclosed : is_closed a = false).
  { unfold is_closed. rewrite Hsa. reflexivity. }
  assert (Hsingle : is_single a = false).
  { unfold is_single. rewrite Hsa. reflexivity. }
  unfold RequestPK. rewrite Hx. split.
  - destruct (m !! y) as [b|]; [|eauto].
    rewrite Hclosed, Hsingle. simpl. destruct (is_closed b); eauto.
  - destruct (m !! y) as [b|]; [|eauto].
    rewrite Hclosed, Hsingle, orb_false_r, andb_false_r. simpl.
    destruct (is_closed b); eauto.
Qed.

(** C2: in every reachable state of the room collection, a room that names
    a partner names a room of the collection, is named back by it, and both
    are PKConnected; the only room that names a paired room is its partner;
    and a request to pair a PKConnected room again is refused and changes
    nothing. *)
Theorem reachable_partner_symmetric (m : Rooms) :
  reachable capacity m →
  (∀ A B, In A (all_rooms m) → In B (all_rooms m) →
     PartnerRoomID A = Some (ID B) →
     PartnerRoomID B = Some (ID A) ∧
     Status A = LiveRoomStatusPKConnected ∧ Status B = LiveRoomStatusPKConnected) ∧
  (∀ A p, In A (all_rooms m) → PartnerRoomID A = Some p →
     ∃ B, In B (all_rooms m) ∧ ID B = p) ∧
  (∀ A B C, In A (all_rooms m) → In B (all_rooms m) → In C (all_rooms m) →
     PartnerRoomID A = Some (ID B) → PartnerRoomID C = Some (ID A) → C = B) ∧
  (∀ A other, In A (all_rooms m) → Status A = LiveRoomStatusPKConnected →
     (∃ f, RequestPK (ID A) other m = (Some f, m)) ∧
     (∃ f, RequestPK other (ID A) m = (Some f, m))).
Proof.
  intros Hreach. pose proof (reachable_symmetric m Hreach) as Hsym.
  split; [|split; [|split]].
  - intros A B HA HB Hp.
    apply (reachable_lookup_ID m A Hreach) in HA.
    apply (reachable_lookup_ID m B Hreach) in HB.
    destruct (Hsym (ID A) A (ID B) HA Hp) as (rb & Hrb & Hback & HsA & HsB).
    rewrite HB in Hrb. injection Hrb as <-. auto.
  - intros A p HA Hp.
    apply (reachable_lookup_ID m A Hreach) in HA.
    destruct (Hsym (ID A) A p HA Hp) as (rb & Hrb & _).
    exists rb. split; [apply all_rooms_lookup; eauto|].
    exact (reachable_keyed m Hreach p rb Hrb).
  - intros A B C HA HB HC HpA HpC.
    apply (reachable_lookup_ID m A Hreach) in HA.
    apply (reachable_lookup_ID m B Hreach) in HB.
    apply (reachable_lookup_ID m C Hreach) in HC.
    destruct (Hsym (ID C) C (ID A) HC HpC) as (ra & Hra & Hback & _).
    rewrite HA in Hra. injection Hra as <-.
    rewrite HpA in Hback. injection Hback as Hid.
    rewrite Hid in HB. rewrite HB in HC. injection HC as <-. reflexivity.
  - intros A other HA HsA.
    apply (reachable_lookup_ID m A Hreach) in HA.
    exact (RequestPK_paired_refused m (ID A) other A HA HsA).
Qed.

End RoomLifecycleFacts.

(** The spec's scenario, evaluated: after the pairing both rooms are
    PKConnected and name each other, and the second room called
    alice_stream was never stored; after alice closes her room it is Closed
    and bob's is Single again, with no partner. *)
Example scenario_of_the_spec :
  paired_rooms !! "ra" = Some (RoomLifecycle.with_status alice_room LiveRoomStatusPKConnected (Some "rb")) ∧
  paired_rooms !! "rb" = Some (RoomLifecycle.with_status bob_room LiveRoomStatusPKConnected (Some "ra")) ∧
  paired_rooms !! "rx" = None ∧
  fst (RoomLifecycle.CreateRoom 100 alice_again {[ "ra" := alice_room ]})
    = Some RoomLifecycle.RoomNameUsed ∧
  closed_rooms !! "ra" = Some (RoomLifecycle.with_status alice_room LiveRoomStatusClosed None) ∧
  closed_rooms !! "rb" = Some (RoomLifecycle.with_status bob_room LiveRoomStatusSingle None).
Proof. repeat split; vm_compute; reflexivity. Qed.

Lemma reachable_partner_symmetric_witness :
  RoomLifecycle.reachable 100 paired_rooms ∧
  PartnerRoomID (RoomLifecycle.with_status bob_room LiveRoomStatusPKConnected (Some "ra"))
    = Some "ra" ∧
  Status (RoomLifecycle.with_status alice_room LiveRoomStatusPKConnected (Some "rb"))
    = LiveRoomStatusPKConnected.
Proof.
  assert (Hreach : RoomLifecycle.reachable 100 paired_rooms).
  { apply run_reachable. constructor. }
  split; [exact Hreach|].
  destruct (reachable_partner_symmetric 100 paired_rooms Hreach) as (Hsym & _).
  destruct (Hsym (RoomLifecycle.with_status alice_room LiveRoomStatusPKConnected (Some "rb"))
                 (RoomLifecycle.with_status bob_room LiveRoomStatusPKConnected (Some "ra")))
    as (Hback & HsA & _).
  - apply all_rooms_lookup. exists "ra". vm_compute. reflexivity.
  - apply all_rooms_lookup. exists "rb". vm_compute. reflexivity.
  - reflexivity.
  - split; [exact Hback | exact HsA].
Defined.

(* ===================================================================== *)
(** * More on the handlers *)
(* ===================================================================== *)

(** ** Names and URLs of rooms *)

Lemma validateRoomName_spec (roomName : string) :
  validateRoomName roomName = true ↔
  (1 ≤ String.length roomName ∧ String.length roomName ≤ 100)%nat.
Proof.
  unfold validateRoomName.
  destruct (Nat.eqb_spec (String.length roomName) 0) as [Hz|Hnz]; simpl.
  - split; [discriminate | lia].
  - destruct (Nat.ltb_spec 100 (String.length roomName)) as [Hlong|Hok].
    + split; [discriminate | lia].
    + split; [lia | reflexivity].
Qed.

Lemma append_inj_r (m s t : string) : m +:+ s = m +:+ t → s = t.
Proof.
  induction m as [|a m IH]; [auto|].
  rewrite !append_cons. intros Heq. injection Heq as Heq. auto.
Qed.

(** X5: two room IDs with the same play URL are the same ID: the URL of a
    room identifies it. *)
Theorem generatePlayURL_injective (h : RoomHandler) (roomID1 roomID2 : string) :
  roomID1 ≠ roomID2 → generatePlayURL h roomID1 ≠ generatePlayURL h roomID2.
Proof.
  intros Hne Heq. apply Hne. unfold generatePlayURL in Heq.
  repeat (apply append_inj_r in Heq). exact Heq.
Qed.

Lemma generatePlayURL_injective_witness :
  "r1" ≠ "r2" ∧
  generatePlayURL world.the_handler "r1" ≠ generatePlayURL world.the_handler "r2".
Proof.
  assert (Hne : "r1" ≠ "r2") by (intros Heq; discriminate Heq).
  split; [exact Hne|].
  exact (generatePlayURL_injective world.the_handler "r1" "r2" Hne).
Defined.

(** ** Creating and closing rooms *)

Section RoomHandlerMore.
Context {St : Type} `{RoomInterface St} `{RandSource St}.

(** What [CreateRoom] does, case by case. *)
Lemma CreateRoom_unbound (h : RoomHandler) (c : Context) (st : St) :
  Bind_CreateRoomArgs c = None →
  CreateRoom h c st =
    mkRun st
      [EvJSON http.StatusBadRequest
         (BodyHTTPError (WithMessage "invalid args in request body"
                           (WithRequestID (ReqId c) (NewHTTPError BadRequest))))]
      Returned.
Proof. intros Hbind. unfold CreateRoom. rewrite Hbind. reflexivity. Qed.

Lemma CreateRoom_invalid_name (h : RoomHandler) (c : Context) (st : St)
    (args : CreateRoomArgs) :
  Bind_CreateRoomArgs c = Some args →
  validateRoomName (RoomName args) = false →
  CreateRoom h c st =
    mkRun st
      [EvJSON http.StatusBadRequest
         (BodyHTTPError (WithMessage ("invalid room name " +:+ RoomName args)
                           (WithRequestID (ReqId c) (NewHTTPError InvalidRoomName))))]
      Returned.
Proof. intros Hbind Hbad. unfold CreateRoom. rewrite Hbind, Hbad. reflexivity. Qed.

Lemma CreateRoom_stored (h : RoomHandler) (c : Context) (st st1 : St)
    (args : CreateRoomArgs) (roomID : string) :
  Bind_CreateRoomArgs c = Some args →
  validateRoomName (RoomName args) = true →
  generateRoomID st = (Some roomID, st1) →
  ∃ answer,
    CreateRoom h c st =
      mkRun (snd (Room_CreateRoom (room_built h c args roomID) st1))
        [EvRoomCreateRoom (room_built h c args roomID); answer] Returned ∧
    ((∃ status e, answer = EvJSON status (BodyHTTPError e) ∧
                  (status = 409 ∨ status = 503 ∨ status = 500) ∧
                  fst (Room_CreateRoom (room_built h c args roomID) st1) ≠ None) ∨
     (answer = EvJSON http.StatusOK
                 (BodyCreateRoomResponse
                    {| Created_RoomID := roomID; Created_RoomName := RoomName args;
                       Created_RTCRoom := roomID;
                       RTCRoomToken := generateRTCRoomToken roomID |}) ∧
      fst (Room_CreateRoom (room_built h c args roomID) st1) = None)).
Proof.
  intros Hbind Hvalid Hgen. unfold CreateRoom, room_built. rewrite Hbind, Hvalid, Hgen. simpl.
  destruct (Room_CreateRoom _ st1) as [[[serverErr|msg]|] st2]; simpl.
  - destruct (Code serverErr); eexists; (split; [reflexivity|]); left;
      do 2 eexists; (split; [reflexivity|]); (split; [|discriminate]); auto.
  - eexists; split; [reflexivity|]. left.
    do 2 eexists; (split; [reflexivity|]); (split; [|discriminate]); auto.
  - eexists; split; [reflexivity|]. right. auto.
Qed.

(** X1: with a random source that keeps its range, [CreateRoom] hands a
    room to the store exactly when the body was bound and the name has
    between 1 and 100 bytes; in every other case it answers 400 once and
    leaves the state, the random source included, as it was. *)
Theorem CreateRoom_store_called_iff (h : RoomHandler) (c : Context) (st : St) :
  (∀ k s, (0 < k)%nat → (fst (Intn k s) < k)%nat) →
  ((∃ room, In (EvRoomCreateRoom room) (events (CreateRoom h c st))) ↔
   (∃ args, Bind_CreateRoomArgs c = Some args ∧
            (1 ≤ String.length (RoomName args) ∧ String.length (RoomName args) ≤ 100)%nat)) ∧
  ((∀ room, ¬ In (EvRoomCreateRoom room) (events (CreateRoom h c st))) →
   state (CreateRoom h c st) = st ∧ statuses (CreateRoom h c st) = [400]).
Proof.
  intros Hlaw.
  destruct (Bind_CreateRoomArgs c) as [args|] eqn:Hbind.
  2: { rewrite (CreateRoom_unbound h c st Hbind). split.
       - split; [intros [room [Hin|[]]]; discriminate Hin | intros (args & Hargs & _); discriminate Hargs].
       - intros _. split; reflexivity. }
  destruct (validateRoomName (RoomName args)) eqn:Hvalid.
  2: { rewrite (CreateRoom_invalid_name h c st args Hbind Hvalid). split.
       - split; [intros [room [Hin|[]]]; discriminate Hin|].
         intros (args' & [= <-] & Hlen). apply validateRoomName_spec in Hlen. congruence.
       - intros _. split; reflexivity. }
  destruct (generateRoomID_total st Hlaw) as (roomID & st1 & Hgen).
  destruct (CreateRoom_stored h c st st1 args roomID Hbind Hvalid Hgen) as (answer & -> & _).
  split.
  - split.
    + intros _. exists args. split; [reflexivity | apply validateRoomName_spec, Hvalid].
    + intros _. eexists. left. reflexivity.
  - intros Hnever. exfalso. eapply Hnever. left. reflexivity.
Qed.

(** X2: the response of a successful [CreateRoom] describes the room that
    was handed to the store: same ID, same name, and the RTC room is the
    room's own ID on both sides. *)
Theorem CreateRoom_response_matches_room (h : RoomHandler) (c : Context) (st : St)
    (room : LiveRoom) (resp : CreateRoomResponse) :
  In (EvRoomCreateRoom room) (events (CreateRoom h c st)) →
  In (EvJSON http.StatusOK (BodyCreateRoomResponse resp)) (events (CreateRoom h c st)) →
  Created_RoomID resp = ID room ∧
  Created_RoomName resp = Name room ∧
  Created_RTCRoom resp = RTCRoom room ∧
  RTCRoom room = ID room.
Proof.
  intros Hroom Hresp. pose proof Hresp as Hrun.
  apply CreateRoom_success_inv in Hrun
    as (args & roomID & st1 & st2 & _ & _ & _ & _ & Hrun).
  rewrite Hrun in Hroom, Hresp.
  destruct Hroom as [Hroom|[Hroom|[]]]; [|discriminate Hroom].
  destruct Hresp as [Hresp|[Hresp|[]]]; [discriminate Hresp|].
  injection Hroom as <-. injection Hresp as <-. repeat split.
Qed.

(** X6: [ListRooms] consults the store exactly when the query has
    [can_pk] with the value [true], byte for byte, and then asks for the
    rooms the caller of the context can PK with. *)
Theorem ListRooms_consults_store_iff (h : RoomHandler) (c : Context) (st : St) (e : Event) :
  In e (events (ListRooms h c st)) ↔
  Query c !! "can_pk" = Some "true" ∧ e = EvRoomListPKRooms (GetString_UserID c).
Proof.
  unfold ListRooms, Query_, GetQuery, ListCanPKRooms, ListAllRooms.
  destruct (Query c !! "can_pk") as [v|]; simpl.
  - destruct (String.eqb_spec v "true") as [->|Hne].
    + destruct (Room_ListPKRooms (GetString_UserID c) st) as [[rooms err] st1]. simpl.
      split; [intros [<-|[]]; auto | intros [_ ->]; auto].
    + simpl. split; [intros [] | intros [[= Hv] _]; contradiction].
  - split; [intros [] | intros [Hq _]; discriminate Hq].
Qed.

End RoomHandlerMore.

Lemma CreateRoom_store_called_iff_witness :
  (∃ room, In (EvRoomCreateRoom room)
             (events (CreateRoom world.the_handler world.alice_creates world.empty_world))) ↔
  (∃ args, Bind_CreateRoomArgs world.alice_creates = Some args ∧
           (1 ≤ String.length (RoomName args) ∧ String.length (RoomName args) ≤ 100)%nat).
Proof.
  exact (proj1 (CreateRoom_store_called_iff world.the_handler world.alice_creates
                  world.empty_world World_Intn_lt)).
Defined.

Lemma CreateRoom_response_matches_room_witness :
  Created_RoomID
    {| Created_RoomID := "6r8hyj0h6zk56ngl"; Created_RoomName := "alice_stream";
       Created_RTCRoom := "6r8hyj0h6zk56ngl"; RTCRoomToken := "" |}
  = ID (room_built world.the_handler world.alice_creates
          {| RoomName := "alice_stream" |} "6r8hyj0h6zk56ngl").
Proof.
  refine (proj1 (CreateRoom_response_matches_room world.the_handler world.alice_creates
                   world.empty_world _ _ _ _)).
  - vm_compute. left. reflexivity.
  - vm_compute. right. left. reflexivity.
Defined.

(** ** Phone numbers and verification codes *)

Lemma well_formed_mobile_length (num : string) :
  well_formed_mobile num = true → String.length num = 11%nat.
Proof.
  unfold well_formed_mobile. destruct num as [|c1 [|c2 rest]]; simpl; try discriminate.
  rewrite !andb_true_iff, length_list_ascii. intros [_ Hlen].
  apply Nat.eqb_eq in Hlen. lia.
Qed.

Lemma append_length_nil (s t : string) :
  String.length (s +:+ t) = String.length t → s = "".
Proof.
  rewrite length_append. destruct s; [reflexivity | simpl; lia].
Qed.

(** X7: on input of at most eleven bytes the check of the phone number is
    exact: it accepts the well-formed mobile numbers and nothing else; in
    particular everything shorter than eleven bytes, the empty string
    included, is refused. *)
Theorem validatePhoneNumber_exact_up_to_11 (s : string) :
  (String.length s ≤ 11)%nat →
  validatePhoneNumber s = well_formed_mobile s ∧
  ((String.length s < 11)%nat → validatePhoneNumber s = false).
Proof.
  intros Hlen.
  assert (Hiff : validatePhoneNumber s = true ↔ well_formed_mobile s = true).
  { rewrite validatePhoneNumber_spec. split.
    - intros (pre & num & post & Hnum & ->).
      pose proof (well_formed_mobile_length num Hnum) as Hn.
      rewrite !length_append in Hlen.
      destruct pre; [|simpl in Hlen; lia]. destruct post; [|simpl in Hlen; lia].
      rewrite append_nil_l, append_nil_r. exact Hnum.
    - intros Hs. exists "", s, "". rewrite append_nil_l, append_nil_r. auto. }
  split.
  - destruct (validatePhoneNumber s), (well_formed_mobile s); try reflexivity.
    + symmetry. apply Hiff. reflexivity.
    + apply Hiff. reflexivity.
  - intros Hshort. apply not_true_iff_false. intros Hv.
    apply Hiff, well_formed_mobile_length in Hv. lia.
Qed.

Lemma validatePhoneNumber_exact_up_to_11_witness :
  (String.length "13812345678" ≤ 11)%nat ∧
  validatePhoneNumber "13812345678" = well_formed_mobile "13812345678".
Proof.
  assert (Hlen : (String.length "13812345678" ≤ 11)%nat) by (simpl; lia).
  split; [exact Hlen|].
  exact (proj1 (validatePhoneNumber_exact_up_to_11 "13812345678" Hlen)).
Defined.

Section AccountHandlerMore.
Context {St : Type} `{AccountInterface St} `{SMSCodeInterface St}.

Lemma SendSMSCode_missing (c : Context) (st : St) :
  Query c !! "phone_number" = None →
  SendSMSCode c st =
    mkRun st
      [EvJSON http.StatusBadRequest
         (BodyHTTPError (WithMessage "empty phone number"
                           (WithRequestID (ReqId c) (NewHTTPError InvalidPhoneNumber))))]
      Returned.
Proof. intros Hq. unfold SendSMSCode, GetQuery. rewrite Hq. reflexivity. Qed.

(** What [SendSMSCode] does once the number passed the check. *)
Lemma SendSMSCode_sent (c : Context) (st : St) (p : string) :
  Query c !! "phone_number" = Some p →
  validatePhoneNumber p = true →
  SendSMSCode c st =
    mkRun (snd (Send p st))
      [EvSMSSend p;
       match fst (Send p st) with
       | None => EvJSON http.StatusOK (BodyString "")
       | Some (IsServerError {| Code := ServerErrorSMSSendTooFrequent |}) =>
           EvJSON http.StatusTooManyRequests
             (BodyHTTPError (WithRequestID (ReqId c) (NewHTTPError SMSSendTooFrequent)))
       | Some e => EvJSON http.StatusInternalServerError (BodyError e)
       end]
      Returned.
Proof.
  intros Hq Hvalid. unfold SendSMSCode, GetQuery. rewrite Hq. simpl. rewrite Hvalid. simpl.
  destruct (Send p st) as [[[[code summary]|msg]|] st1]; simpl; try reflexivity.
  destruct code; reflexivity.
Qed.

(** The gateway is called only with the value of the query, and only when
    it passed the check. *)
Lemma SendSMSCode_sent_inv (c : Context) (st : St) (p : string) :
  In (EvSMSSend p) (events (SendSMSCode c st)) →
  Query c !! "phone_number" = Some p ∧ validatePhoneNumber p = true.
Proof.
  destruct (Query c !! "phone_number") as [q|] eqn:Hq.
  2: { rewrite (SendSMSCode_missing c st Hq). intros [Hin|[]]. discriminate Hin. }
  destruct (validatePhoneNumber q) eqn:Hvalid.
  - rewrite (SendSMSCode_sent c st q Hq Hvalid). intros [[= <-]|[Hin|[]]]; [auto|].
    destruct (fst (Send q st)) as [[[[]]|]|]; discriminate Hin.
  - rewrite (SendSMSCode_rejects c st q Hq Hvalid). intros [Hin|[]]. discriminate Hin.
Qed.

(** X8: [SendSMSCode] calls the SMS gateway exactly when the query has a
    [phone_number] that contains a well-formed mobile number, and calls it
    with the value as given; when it does not call the gateway it answers
    400 and leaves the state as it was. *)
Theorem SendSMSCode_gateway_iff (c : Context) (st : St) :
  (∀ p, In (EvSMSSend p) (events (SendSMSCode c st)) ↔
        Query c !! "phone_number" = Some p ∧
        ∃ pre num post, well_formed_mobile num = true ∧ p = pre +:+ num +:+ post) ∧
  ((∀ p, ¬ In (EvSMSSend p) (events (SendSMSCode c st))) →
   state (SendSMSCode c st) = st ∧ statuses (SendSMSCode c st) = [400]).
Proof.
  destruct (Query c !! "phone_number") as [q|] eqn:Hq.
  2: { rewrite (SendSMSCode_missing c st Hq). split.
       - intros p. split; [intros [Hin|[]]; discriminate Hin | intros [Hp _]; discriminate Hp].
       - intros _. split; reflexivity. }
  destruct (validatePhoneNumber q) eqn:Hvalid.
  - rewrite (SendSMSCode_sent c st q Hq Hvalid). split.
    + intros p. split.
      * intros [[= <-]|[Hin|[]]].
        -- split; [reflexivity | apply validatePhoneNumber_spec, Hvalid].
        -- destruct (fst (Send q st)) as [[[[]]|]|]; discriminate Hin.
      * intros [[= <-] _]. left. reflexivity.
    + intros Hnever. exfalso. apply (Hnever q). left. reflexivity.
  - rewrite (SendSMSCode_rejects c st q Hq Hvalid). split.
    + intros p. split; [intros [Hin|[]]; discriminate Hin|].
      intros [[= <-] Hcontains]. apply validatePhoneNumber_spec in Hcontains. congruence.
    + intros _. split; reflexivity.
Qed.

(** ** Logging out *)

(** X10: [Logout] returns normally exactly when the context holds a string
    under the user ID key; with no value, or a value of another type, it
    panics at the type assertion before the account interface is called. *)
Theorem Logout_returns_iff_string_id (c : Context) (st : St) :
  (outcome (Logout c st) = Returned ↔ ∃ id, UserID c = Some (VString id)) ∧
  (outcome (Logout c st) ≠ Returned →
   state (Logout c st) = st ∧ ∀ id, ¬ In (EvAccountLogout id) (events (Logout c st))).
Proof.
  unfold Logout, Get_UserID. destruct (UserID c) as [[id|n]|]; simpl.
  - destruct (AccountLogout id st) as [err st1]. simpl. split.
    + split; eauto.
    + intros Hne. contradiction.
  - split.
    + split; [discriminate | intros [id Hid]; discriminate Hid].
    + intros _. split; [reflexivity | intros id []].
  - split.
    + split; [discriminate | intros [id Hid]; discriminate Hid].
    + intros _. split; [reflexivity|]. intros id [Hin|[]]. discriminate Hin.
Qed.

(** X11: with a string as user ID, [Logout] calls the account interface
    once with that ID and always goes on to clear the login cookie and to
    answer 200, also when the interface failed: the statuses written are
    then 401 followed by 200. *)
Theorem Logout_with_string_id (c : Context) (st : St) (id : string) :
  UserID c = Some (VString id) →
  events (Logout c st) =
    ([EvAccountLogout id] ++
     match fst (AccountLogout id st) with
     | Some _ => [EvJSON 401 (BodyString "")]
     | None => []
     end ++
     [EvSetCookieLoginToken "" (-1); EvJSON 200 (BodyString "")])%list ∧
  statuses (Logout c st) =
    match fst (AccountLogout id st) with
    | Some _ => [401; 200]
    | None => [200]
    end ∧
  state (Logout c st) = snd (AccountLogout id st).
Proof.
  intros Hid. unfold Logout, Get_UserID, statuses. rewrite Hid. simpl.
  destruct (AccountLogout id st) as [[err|] st1]; simpl; auto.
Qed.

End AccountHandlerMore.

Lemma Logout_with_string_id_witness :
  UserID world.alice_lists = Some (VString "alice") ∧
  statuses (Logout world.alice_lists world.bob_world) = [200].
Proof.
  split; [reflexivity|].
  exact (proj1 (proj2 (Logout_with_string_id world.alice_lists world.bob_world "alice"
                         eq_refl))).
Defined.

(** ** Logging in and the profile *)

Module AccountFacts.
Import account.
Local Open Scope list_scope.

(** Case analysis of a handler: every interface result and every test it
    branches on. *)
Ltac handler_cases :=
  repeat match goal with
         | |- context [match ?x with _ => _ end] => destruct x eqn:?
         end; simpl.

(** Membership in a list of events that is known: one goal per event that
    is not excluded by its constructor. *)
Ltac in_cases H :=
  simpl in H;
  repeat match type of H with
         | _ ∨ _ => destruct H as [H|H]
         | False => destruct H
         end;
  try discriminate H.

(** Membership of a given event in a list that is known. *)
Ltac in_solve := simpl; repeat first [left; reflexivity | right].

Section Handlers.
Context {St : Type} `{AccountStore St} `{SMSCodeValidator St} `{RandSource St}.

(** The loops of the two ID generators are the same loop. *)
Lemma generateUserID_loop_eq (n : nat) (id : string) (st : St) :
  generateUserID_loop n id st = generateRoomID_loop n id st.
Proof.
  revert id st. induction n as [|n IH]; intros id st; [reflexivity|].
  cbn [generateUserID_loop generateRoomID_loop].
  destruct (Intn (String.length alphaNum) st) as [index st1].
  destruct (String.get index alphaNum); [apply IH | reflexivity].
Qed.

Lemma generateUserID_Some (id : string) (st st' : St) :
  generateUserID st = (Some id, st') →
  String.length id = 12%nat ∧
  Forall (λ ch, In ch (list_ascii_of_string alphaNum)) (list_ascii_of_string id).
Proof.
  unfold generateUserID. rewrite generateUserID_loop_eq. intros Hgen.
  apply generateRoomID_loop_Some in Hgen as (tail & -> & Hlen & Hall).
  rewrite append_nil_l. auto.
Qed.

(** X12: with a random source that keeps its range, [generateUserID]
    always produces an ID, of 12 bytes, each of them a digit or a lower
    case letter. *)
Theorem generateUserID_spec (st : St) :
  (∀ k s, (0 < k)%nat → (fst (Intn k s) < k)%nat) →
  ∃ id st',
    generateUserID st = (Some id, st') ∧
    String.length id = 12%nat ∧
    Forall (λ ch, In ch (list_ascii_of_string "0123456789abcdefghijklmnopqrstuvwxyz"))
      (list_ascii_of_string id).
Proof.
  intros Hlaw.
  destruct (generateRoomID_loop_total 12 "" st Hlaw) as (id & st' & Hgen).
  rewrite <- generateUserID_loop_eq in Hgen.
  exists id, st'. split; [exact Hgen|]. exact (generateUserID_Some id st st' Hgen).
Qed.

(** X13: unless the query has [logintype=smscode], [Login] answers 400
    with the bad-login-type error and calls none of the interfaces. *)
Theorem Login_other_type_refused (r : Request) (st : St) :
  gin.Query (Ctx r) !! "logintype" ≠ Some "smscode" →
  ∃ e, Login r st = mkRun st [EvJSON 400 (BodyHTTPError e)] gin.Returned ∧
       Kind e = BadLoginType ∧ RequestID e = gin.ReqId (Ctx r).
Proof.
  intros Hq. unfold Login, gin.GetQuery.
  destruct (gin.Query (Ctx r) !! "logintype") as [v|]; simpl.
  - destruct (String.eqb_spec v LoginTypeSMSCode) as [->|Hne]; [contradiction|].
    eexists. split; [reflexivity|]. split; reflexivity.
  - eexists. split; [reflexivity|]. split; reflexivity.
Qed.

(** X14: when the code does not validate, [LoginBySMS] answers 401 with
    the wrong-code error at once: no account is looked up or created and
    nobody is logged in. *)
Theorem LoginBySMS_wrong_code (r : Request) (st : St) (args : SMSLoginArgs) :
  Bind_SMSLoginArgs r = Some args →
  fst (Validate (Args_PhoneNumber args) (SMSCode args) st) ≠ None →
  LoginBySMS r st =
    mkRun (snd (Validate (Args_PhoneNumber args) (SMSCode args) st))
      [EvValidate (Args_PhoneNumber args) (SMSCode args);
       EvJSON 401 (BodyHTTPError (WithRequestID (gin.ReqId (Ctx r)) (NewHTTPError WrongSMSCode)))]
      gin.Returned.
Proof.
  intros Hbind Hwrong. unfold LoginBySMS. rewrite Hbind.
  destruct (Validate (Args_PhoneNumber args) (SMSCode args) st) as [[err|] st1]; simpl in *.
  - reflexivity.
  - contradiction.
Qed.

(** X15: the login cookie and the 200 answer of [LoginBySMS] go together:
    a response body is written with status 200 exactly when the cookie is
    set, the cookie carries the token of the body with max-age 0, and the
    user of the body is the account that was logged in. *)
Theorem LoginBySMS_cookie_and_body (r : Request) (st : St) :
  (∀ body, In (EvJSON 200 body) (events (LoginBySMS r st)) →
     ∃ resp, body = BodyLoginResponse resp ∧
             In (EvSetCookieLoginToken (Login_Token resp) 0) (events (LoginBySMS r st)) ∧
             In (EvAccountLogin (Info_ID (Login_UserInfo resp))) (events (LoginBySMS r st))) ∧
  (∀ value maxAge, In (EvSetCookieLoginToken value maxAge) (events (LoginBySMS r st)) →
     maxAge = 0 ∧
     ∃ resp, In (EvJSON 200 (BodyLoginResponse resp)) (events (LoginBySMS r st)) ∧
             Login_Token resp = value).
Proof.
  split.
  - intros body. unfold LoginBySMS, LoginBySMS_login. handler_cases;
      intros Hin; in_cases Hin;
      injection Hin as <-; eexists; (split; [reflexivity|]); split; in_solve.
  - intros value maxAge. unfold LoginBySMS, LoginBySMS_login. handler_cases;
      intros Hin; in_cases Hin;
      injection Hin as <- <-; (split; [reflexivity|]); eexists; (split; [in_solve | reflexivity]).
Qed.

(** X16: an account that [LoginBySMS] creates has the phone number of the
    request, a fresh 12-byte ID over the alphabet, and no nickname or
    gender; and it is created only after the code of the request validated
    and the lookup by phone number failed with the message [not found]. *)
Theorem LoginBySMS_created_account (r : Request) (st : St) (a : Account) :
  In (EvCreateAccount a) (events (LoginBySMS r st)) →
  ∃ args e,
    Bind_SMSLoginArgs r = Some args ∧
    fst (Validate (Args_PhoneNumber args) (SMSCode args) st) = None ∧
    PhoneNumber a = Args_PhoneNumber args ∧
    Nickname a = "" ∧ Gender a = "" ∧
    String.length (Account_ID a) = 12%nat ∧
    Forall (λ ch, In ch (list_ascii_of_string "0123456789abcdefghijklmnopqrstuvwxyz"))
      (list_ascii_of_string (Account_ID a)) ∧
    snd (fst (GetAccountByPhoneNumber (Args_PhoneNumber args)
                (snd (Validate (Args_PhoneNumber args) (SMSCode args) st)))) = Some e ∧
    Error_ e = "not found".
Proof.
  unfold LoginBySMS.
  destruct (Bind_SMSLoginArgs r) as [args|]; simpl.
  2: { intros Hin. in_cases Hin. }
  destruct (Validate (Args_PhoneNumber args) (SMSCode args) st) as [[verr|] st1] eqn:Hval; simpl.
  { intros Hin. in_cases Hin. }
  destruct (GetAccountByPhoneNumber (Args_PhoneNumber args) st1)
    as [[account [e|]] st2] eqn:Hget; simpl.
  2: { unfold LoginBySMS_login. handler_cases; intros Hin; in_cases Hin. }
  destruct (String.eqb_spec (Error_ e) "not found") as [Hnf|Hother].
  2: { intros Hin; in_cases Hin. }
  destruct (generateUserID st2) as [[uid|] st3] eqn:Hgen; simpl.
  2: { intros Hin; in_cases Hin. }
  apply generateUserID_Some in Hgen as [Hlen Hall].
  assert (Hgoal : a = {| Account_ID := uid; PhoneNumber := Args_PhoneNumber args;
                         Nickname := ""; Gender := "" |} →
            ∃ args0 e0, Some args = Some args0 ∧
              fst (Validate (Args_PhoneNumber args0) (SMSCode args0) st) = None ∧
              PhoneNumber a = Args_PhoneNumber args0 ∧
              Nickname a = "" ∧ Gender a = "" ∧ String.length (Account_ID a) = 12%nat ∧
              Forall (λ ch, In ch (list_ascii_of_string "0123456789abcdefghijklmnopqrstuvwxyz"))
                (list_ascii_of_string (Account_ID a)) ∧
              snd (fst (GetAccountByPhoneNumber (Args_PhoneNumber args0)
                          (snd (Validate (Args_PhoneNumber args0) (SMSCode args0) st)))) = Some e0 ∧
              Error_ e0 = "not found").
  { intros ->. exists args, e. rewrite Hval. cbn [fst snd]. rewrite Hget.
    cbn [fst snd PhoneNumber Nickname Gender Account_ID].
    repeat split; first [reflexivity | exact Hlen | exact Hall | exact Hnf]. }
  destruct (CreateAccount _ st3) as [[cerr|] st4]; simpl.
  - intros Hin. in_cases Hin. injection Hin as <-. apply Hgoal. reflexivity.
  - unfold LoginBySMS_login. handler_cases;
      intros Hin; in_cases Hin; injection Hin as <-; apply Hgoal; reflexivity.
Qed.

(** X17: [LoginBySMS] answers 400 only to a body it cannot bind; to a bound
    request it answers 200 or 401 and nothing else, whatever fails behind
    it, and it writes no response only when it panics. *)
Theorem LoginBySMS_statuses (r : Request) (st : St) :
  (Bind_SMSLoginArgs r = None → statuses (LoginBySMS r st) = [400]) ∧
  (∀ args, Bind_SMSLoginArgs r = Some args →
     (outcome (LoginBySMS r st) = gin.Returned ∧
      (statuses (LoginBySMS r st) = [200] ∨ statuses (LoginBySMS r st) = [401])) ∨
     (outcome (LoginBySMS r st) ≠ gin.Returned ∧ statuses (LoginBySMS r st) = [])).
Proof.
  split.
  - intros Hbind. unfold LoginBySMS. rewrite Hbind. reflexivity.
  - intros args Hbind. unfold LoginBySMS, LoginBySMS_login, statuses. rewrite Hbind.
    handler_cases; try (left; split; [reflexivity|]; auto; fail);
      right; (split; [discriminate | reflexivity]).
Qed.

(** X18: nobody is logged in without a validated code: [LoginBySMS] calls
    [AccountLogin] only after [Validate] accepted the code of the
    request. *)
Theorem LoginBySMS_login_needs_code (r : Request) (st : St) (id : string) :
  In (EvAccountLogin id) (events (LoginBySMS r st)) →
  ∃ args, Bind_SMSLoginArgs r = Some args ∧
          fst (Validate (Args_PhoneNumber args) (SMSCode args) st) = None.
Proof.
  unfold LoginBySMS.
  destruct (Bind_SMSLoginArgs r) as [args|]; simpl.
  2: { intros Hin. in_cases Hin. }
  destruct (Validate (Args_PhoneNumber args) (SMSCode args) st) as [[verr|] st1] eqn:Hval; simpl.
  { intros Hin. in_cases Hin. }
  intros _. exists args. rewrite Hval. auto.
Qed.

(** What [UpdateProfile] does with a request it could bind and an account
    the store returned without error. *)
Lemma UpdateProfile_fetched (r : Request) (st st1 : St)
    (args : UpdateProfileArgs) (old : Account) :
  Bind_UpdateProfileArgs r = Some args →
  GetAccountByID (gin.GetString_UserID (Ctx r)) st = ((Some old, None), st1) →
  let id := gin.GetString_UserID (Ctx r) in
  let sent := {| Account_ID := Account_ID old;
                 PhoneNumber := PhoneNumber old;
                 Nickname := if String.eqb (Args_Nickname args) ""
                             then Nickname old else Args_Nickname args;
                 Gender := if String.eqb (Args_Gender args) ""
                           then Gender old else Args_Gender args |} in
  if negb (String.eqb (Account_ID old) "") && negb (String.eqb (Account_ID old) id) then
    UpdateProfile r st =
      mkRun st1
        [EvGetAccountByID id;
         EvJSON 404 (BodyHTTPError (WithMessage ("user " +:+ id +:+ " not found")
                                      (WithRequestID (gin.ReqId (Ctx r))
                                         (NewHTTPError NoSuchUser))))]
        gin.Returned
  else
    ∃ tail out,
      UpdateProfile r st =
        mkRun (snd (UpdateAccount id sent st1))
          ([EvGetAccountByID id; EvUpdateAccount id sent] ++ tail) out ∧
      match fst (UpdateAccount id sent st1) with
      | (_, Some e) =>
          tail = [EvJSON 500 (BodyHTTPError
                                (WithMessage ("update account failed: " +:+ Error_ e)
                                   (WithRequestID (gin.ReqId (Ctx r))
                                      (NewHTTPError Internal))))] ∧
          out = gin.Returned
      | (Some new, None) =>
          tail = [EvJSON 200 (BodyUpdateProfileResponse
                                {| Updated_ID := Account_ID new;
                                   Updated_Nickname := Nickname new;
                                   Updated_Gender := Gender new |})] ∧
          out = gin.Returned
      | (None, None) => tail = [] ∧ out ≠ gin.Returned
      end.
Proof.
  intros Hbind Hget id sent. subst id sent. unfold UpdateProfile. rewrite Hbind, Hget.
  destruct (negb (String.eqb (Account_ID old) "") &&
            negb (String.eqb (Account_ID old) (gin.GetString_UserID (Ctx r)))); [reflexivity|].
  destruct old as [oid ophone onick ogender]. cbn [Account_ID PhoneNumber Nickname Gender].
  destruct (String.eqb (Args_Nickname args) ""), (String.eqb (Args_Gender args) "");
    cbn [negb Account_ID PhoneNumber Nickname Gender];
    match goal with
    | |- context [UpdateAccount ?i ?a ?s] =>
        destruct (UpdateAccount i a s) as [[[new|] [e|]] st2]
    end; cbn [fst snd]; do 2 eexists; (split; [reflexivity|]); split;
    first [reflexivity | discriminate].
Qed.

(** X19: the account [UpdateProfile] hands to the store is the account
    the store returned for the caller's ID, with nickname and gender
    replaced by the request's where those are not empty; ID and phone
    number are never changed, and the account is the caller's own or has
    an empty ID. *)
Theorem UpdateProfile_account_sent (r : Request) (st : St) (id : string) (a : Account) :
  In (EvUpdateAccount id a) (events (UpdateProfile r st)) →
  ∃ args old,
    Bind_UpdateProfileArgs r = Some args ∧
    id = gin.GetString_UserID (Ctx r) ∧
    fst (GetAccountByID id st) = (Some old, None) ∧
    (Account_ID old = "" ∨ Account_ID old = id) ∧
    Account_ID a = Account_ID old ∧
    PhoneNumber a = PhoneNumber old ∧
    Nickname a = (if String.eqb (Args_Nickname args) "" then Nickname old
                  else Args_Nickname args) ∧
    Gender a = (if String.eqb (Args_Gender args) "" then Gender old else Args_Gender args).
Proof.
  destruct (Bind_UpdateProfileArgs r) as [args|] eqn:Hbind.
  2: { unfold UpdateProfile. rewrite Hbind. intros Hin. in_cases Hin. }
  destruct (GetAccountByID (gin.GetString_UserID (Ctx r)) st) as [[[old|] [e|]] st1] eqn:Hget;
    try (unfold UpdateProfile; rewrite Hbind, Hget; intros Hin; in_cases Hin; fail).
  pose proof (UpdateProfile_fetched r st st1 args old Hbind Hget) as Hrun. cbv zeta in Hrun.
  destruct (String.eqb_spec (Account_ID old) "") as [Hempty|Hnonempty];
    destruct (String.eqb_spec (Account_ID old) (gin.GetString_UserID (Ctx r))) as [Hown|Hforeign];
    cbn [negb andb] in Hrun;
    try (rewrite Hrun; intros Hin; in_cases Hin; fail);
    destruct Hrun as (tail & out & -> & Htail); cbn [events];
    intros Hin;
    (assert (Hhead : EvUpdateAccount id a =
                     EvUpdateAccount (gin.GetString_UserID (Ctx r))
                       {| Account_ID := Account_ID old; PhoneNumber := PhoneNumber old;
                          Nickname := if String.eqb (Args_Nickname args) ""
                                      then Nickname old else Args_Nickname args;
                          Gender := if String.eqb (Args_Gender args) ""
                                    then Gender old else Args_Gender args |});
     [ destruct Hin as [Hin|[Hin|Hin]]; [discriminate Hin | congruence |];
       exfalso; revert Htail Hin;
       match goal with
       | |- context [UpdateAccount ?i ?x ?s] =>
           destruct (fst (UpdateAccount i x s)) as [[new|] [e|]]
       end; intros [-> _] Hin; in_cases Hin
     | injection Hhead as -> ->; exists args, old; rewrite Hget; cbn [fst];
       repeat split; auto ]).
Qed.

(** X20: a profile is answered 200 only after the store was updated, and
    the body shows the account the store returned from the update, not the
    one that was sent. *)
Theorem UpdateProfile_response_is_stored (r : Request) (st : St) (body : Body) :
  In (EvJSON 200 body) (events (UpdateProfile r st)) →
  ∃ a new,
    In (EvUpdateAccount (gin.GetString_UserID (Ctx r)) a) (events (UpdateProfile r st)) ∧
    fst (UpdateAccount (gin.GetString_UserID (Ctx r)) a
           (snd (GetAccountByID (gin.GetString_UserID (Ctx r)) st))) = (Some new, None) ∧
    body = BodyUpdateProfileResponse
             {| Updated_ID := Account_ID new; Updated_Nickname := Nickname new;
                Updated_Gender := Gender new |}.
Proof.
  destruct (Bind_UpdateProfileArgs r) as [args|] eqn:Hbind.
  2: { unfold UpdateProfile. rewrite Hbind. intros Hin. in_cases Hin. }
  destruct (GetAccountByID (gin.GetString_UserID (Ctx r)) st) as [[[old|] [e|]] st1] eqn:Hget;
    try (unfold UpdateProfile; rewrite Hbind, Hget; intros Hin; in_cases Hin; fail).
  pose proof (UpdateProfile_fetched r st st1 args old Hbind Hget) as Hrun. cbv zeta in Hrun.
  destruct (negb (String.eqb (Account_ID old) "") &&
            negb (String.eqb (Account_ID old) (gin.GetString_UserID (Ctx r)))).
  { rewrite Hrun. intros Hin. in_cases Hin. }
  destruct Hrun as (tail & out & -> & Htail). cbn [events snd].
  intros Hin. eexists. 
  match type of Htail with
  | context [UpdateAccount ?i ?x ?s] =>
      destruct (UpdateAccount i x s) as [[[new|] [e|]] st2] eqn:Hupd
  end; cbn [fst] in Htail; destruct Htail as [-> _]; in_cases Hin.
  injection Hin as <-. exists new. split; [in_solve|].
  split; [cbn [snd]; rewrite Hupd; reflexivity | reflexivity].
Qed.

(** X21: when the account the store returns has a non-empty ID that is not
    the caller's, [UpdateProfile] answers 404, naming the caller's ID, and
    does not call [UpdateAccount]. *)
Theorem UpdateProfile_foreign_account (r : Request) (st : St)
    (args : UpdateProfileArgs) (old : Account) :
  Bind_UpdateProfileArgs r = Some args →
  fst (GetAccountByID (gin.GetString_UserID (Ctx r)) st) = (Some old, None) →
  Account_ID old ≠ "" →
  Account_ID old ≠ gin.GetString_UserID (Ctx r) →
  UpdateProfile r st =
    mkRun (snd (GetAccountByID (gin.GetString_UserID (Ctx r)) st))
      [EvGetAccountByID (gin.GetString_UserID (Ctx r));
       EvJSON 404 (BodyHTTPError
                     (WithMessage ("user " +:+ gin.GetString_UserID (Ctx r) +:+ " not found")
                        (WithRequestID (gin.ReqId (Ctx r)) (NewHTTPError NoSuchUser))))]
      gin.Returned.
Proof.
  intros Hbind Hget Hnonempty Hforeign.
  destruct (GetAccountByID (gin.GetString_UserID (Ctx r)) st) as [res st1] eqn:Hcall.
  cbn [fst snd] in *. subst res.
  pose proof (UpdateProfile_fetched r st st1 args old Hbind Hcall) as Hrun. cbv zeta in Hrun.
  apply String.eqb_neq in Hnonempty, Hforeign. rewrite Hnonempty, Hforeign in Hrun.
  exact Hrun.
Qed.

(** X22: a profile request answered 400 or 404 has changed nothing: the
    store was not asked to update any account. *)
Theorem UpdateProfile_refused_no_update (r : Request) (st : St) :
  In 400 (statuses (UpdateProfile r st)) ∨ In 404 (statuses (UpdateProfile r st)) →
  ∀ id a, ¬ In (EvUpdateAccount id a) (events (UpdateProfile r st)).
Proof.
  unfold UpdateProfile, statuses. handler_cases; intros Hst ? ? Hin; in_cases Hin;
    destruct Hst as [Hst|Hst]; in_cases Hst.
Qed.

End Handlers.

(** The source of [account_world] keeps [Intn n] below [n]. *)
Lemma account_world_Intn_lt (k : nat) (w : account_world.World) :
  (0 < k)%nat → (fst (Intn k w) < k)%nat.
Proof.
  intros Hk. simpl.
  pose proof (Z.mod_pos_bound (account_world.seed w) (Z.of_nat k) ltac:(lia)). lia.
Qed.

Import account_world.

Lemma generateUserID_spec_witness :
  ∃ id st',
    generateUserID start = (Some id, st') ∧
    String.length id = 12%nat ∧
    Forall (λ ch, In ch (list_ascii_of_string "0123456789abcdefghijklmnopqrstuvwxyz"))
      (list_ascii_of_string id).
Proof. exact (generateUserID_spec start account_world_Intn_lt). Defined.

Lemma Login_other_type_refused_witness :
  gin.Query (Ctx password_login) !! "logintype" ≠ Some "smscode" ∧
  ∃ e, Login password_login start = mkRun start [EvJSON 400 (BodyHTTPError e)] gin.Returned ∧
       Kind e = BadLoginType ∧ RequestID e = gin.ReqId (Ctx password_login).
Proof.
  assert (Hq : gin.Query (Ctx password_login) !! "logintype" ≠ Some "smscode").
  { vm_compute. intros Heq. discriminate Heq. }
  split; [exact Hq|].
  exact (Login_other_type_refused password_login start Hq).
Defined.

Lemma LoginBySMS_wrong_code_witness :
  fst (Validate "13812345678" "0000" start) ≠ None ∧
  statuses (LoginBySMS alice_wrong_code start) = [401].
Proof.
  assert (Hwrong : fst (Validate "13812345678" "0000" start) ≠ None).
  { vm_compute. intros Heq. discriminate Heq. }
  split; [exact Hwrong|].
  rewrite (LoginBySMS_wrong_code alice_wrong_code start
             {| Args_PhoneNumber := "13812345678"; SMSCode := "0000" |} eq_refl Hwrong).
  reflexivity.
Defined.

Lemma LoginBySMS_created_account_witness :
  In (EvCreateAccount {| Account_ID := "70lyfopur096"; PhoneNumber := "13900000000";
                         Nickname := ""; Gender := "" |})
     (events (LoginBySMS newcomer_logs_in start)) ∧
  ∃ args e,
    Bind_SMSLoginArgs newcomer_logs_in = Some args ∧
    fst (Validate (Args_PhoneNumber args) (SMSCode args) start) = None ∧
    "13900000000" = Args_PhoneNumber args ∧
    snd (fst (GetAccountByPhoneNumber (Args_PhoneNumber args)
                (snd (Validate (Args_PhoneNumber args) (SMSCode args) start)))) = Some e ∧
    Error_ e = "not found".
Proof.
  assert (Hin : In (EvCreateAccount {| Account_ID := "70lyfopur096";
                                       PhoneNumber := "13900000000";
                                       Nickname := ""; Gender := "" |})
                  (events (LoginBySMS newcomer_logs_in start))).
  { vm_compute. right. right. left. reflexivity. }
  split; [exact Hin|].
  destruct (LoginBySMS_created_account newcomer_logs_in start _ Hin)
    as (args & e & Hbind & Hcode & Hphone & _ & _ & _ & _ & Hget & Hnf).
  exists args, e. exact (conj Hbind (conj Hcode (conj Hphone (conj Hget Hnf)))).
Defined.

Lemma LoginBySMS_login_needs_code_witness :
  In (EvAccountLogin "u1") (events (LoginBySMS alice_logs_in start)) ∧
  ∃ args, Bind_SMSLoginArgs alice_logs_in = Some args ∧
          fst (Validate (Args_PhoneNumber args) (SMSCode args) start) = None.
Proof.
  assert (Hin : In (EvAccountLogin "u1") (events (LoginBySMS alice_logs_in start))).
  { vm_compute. right. right. left. reflexivity. }
  split; [exact Hin|].
  exact (LoginBySMS_login_needs_code alice_logs_in start "u1" Hin).
Defined.

Lemma UpdateProfile_account_sent_witness :
  In (EvUpdateAccount "u1" {| Account_ID := "u1"; PhoneNumber := "13812345678";
                              Nickname := "alice"; Gender := "f" |})
     (events (UpdateProfile alice_renames start)) ∧
  ∃ args old,
    Bind_UpdateProfileArgs alice_renames = Some args ∧
    fst (GetAccountByID "u1" start) = (Some old, None) ∧
    "u1" = Account_ID old ∧ "13812345678" = PhoneNumber old.
Proof.
  assert (Hin : In (EvUpdateAccount "u1" {| Account_ID := "u1"; PhoneNumber := "13812345678";
                                            Nickname := "alice"; Gender := "f" |})
                  (events (UpdateProfile alice_renames start))).
  { vm_compute. right. left. reflexivity. }
  split; [exact Hin|].
  destruct (UpdateProfile_account_sent alice_renames start _ _ Hin)
    as (args & old & Hbind & _ & Hget & _ & Hid & Hphone & _).
  exists args, old. exact (conj Hbind (conj Hget (conj Hid Hphone))).
Defined.

Lemma UpdateProfile_response_is_stored_witness :
  In (EvJSON 200 (BodyUpdateProfileResponse
                    {| Updated_ID := "u1"; Updated_Nickname := "alice";
                       Updated_Gender := "f" |}))
     (events (UpdateProfile alice_renames start)) ∧
  ∃ a new,
    In (EvUpdateAccount (gin.GetString_UserID (Ctx alice_renames)) a)
       (events (UpdateProfile alice_renames start)) ∧
    fst (UpdateAccount (gin.GetString_UserID (Ctx alice_renames)) a
           (snd (GetAccountByID (gin.GetString_UserID (Ctx alice_renames)) start)))
      = (Some new, None).
Proof.
  assert (Hin : In (EvJSON 200 (BodyUpdateProfileResponse
                                  {| Updated_ID := "u1"; Updated_Nickname := "alice";
                                     Updated_Gender := "f" |}))
                  (events (UpdateProfile alice_renames start))).
  { vm_compute. right. right. left. reflexivity. }
  split; [exact Hin|].
  destruct (UpdateProfile_response_is_stored alice_renames start _ Hin)
    as (a & new & Hsent & Hupd & _).
  exists a, new. exact (conj Hsent Hupd).
Defined.

Lemma UpdateProfile_foreign_account_witness :
  fst (GetAccountByID (gin.GetString_UserID (Ctx bob_renames_alice)) {| held := alice |})
    = (Some alice, None) ∧
  Account_ID alice ≠ gin.GetString_UserID (Ctx bob_renames_alice) ∧
  statuses (UpdateProfile bob_renames_alice {| held := alice |}) = [404].
Proof.
  assert (Hne : Account_ID alice ≠ gin.GetString_UserID (Ctx bob_renames_alice)).
  { vm_compute. intros Heq. discriminate Heq. }
  assert (Hnonempty : Account_ID alice ≠ "").
  { vm_compute. intros Heq. discriminate Heq. }
  assert (Hget : fst (GetAccountByID (gin.GetString_UserID (Ctx bob_renames_alice))
                        {| held := alice |}) = (Some alice, None)) by reflexivity.
  assert (Hbind : Bind_UpdateProfileArgs bob_renames_alice
                  = Some {| Args_Nickname := "mallory"; Args_Gender := "" |}) by reflexivity.
  split; [exact Hget|]. split; [exact Hne|].
  rewrite (UpdateProfile_foreign_account bob_renames_alice {| held := alice |}
             {| Args_Nickname := "mallory"; Args_Gender := "" |} alice
             Hbind Hget Hnonempty Hne).
  reflexivity.
Defined.

Lemma UpdateProfile_refused_no_update_witness :
  In 404 (statuses (UpdateProfile bob_renames_alice {| held := alice |})) ∧
  ¬ In (EvUpdateAccount "u2" alice)
      (events (UpdateProfile bob_renames_alice {| held := alice |})).
Proof.
  assert (Hst : In 404 (statuses (UpdateProfile bob_renames_alice {| held := alice |}))).
  { vm_compute. left. reflexivity. }
  split; [exact Hst|].
  exact (UpdateProfile_refused_no_update bob_renames_alice {| held := alice |}
           (or_intror Hst) "u2" alice).
Defined.

End AccountFacts.

(* ===================================================================== *)
(** * The handlers and errors that are nil pointers *)
(* ===================================================================== *)

Module TypedNilFacts.
Import typed_nil.


(** ** The two models agree where no nil pointer is returned *)

Section Agreement.
Context {St : Type} `{handler.RoomInterface St} `{handler.SMSCodeInterface St}
        `{RandSource St}.

Lemma CreateRoom_agrees (h : RoomHandler) (c : Context) (st : St) :
  CreateRoom h c st = handler.CreateRoom h c st.
Proof.
  unfold CreateRoom, handler.CreateRoom.
  destruct (Bind_CreateRoomArgs c) as [args|]; [|reflexivity].
  destruct (negb (validateRoomName (RoomName args))); [reflexivity|].
  destruct (generateRoomID st) as [[roomID|] st1]; [|reflexivity].
  cbn [Room_CreateRoom RoomInterface_of].
  destruct (handler.Room_CreateRoom _ st1) as [[[serverErr|msg]|] st2]; reflexivity.
Qed.

Lemma CloseRoom_agrees (h : RoomHandler) (c : Context) (st : St) :
  CloseRoom h c st = handler.CloseRoom h c st.
Proof.
  unfold CloseRoom, handler.CloseRoom.
  destruct (Bind_CloseRoomArgs c) as [args|]; [|reflexivity].
  cbn [Room_CloseRoom RoomInterface_of].
  destruct (handler.Room_CloseRoom _ _ st) as [[[serverErr|msg]|] st1]; reflexivity.
Qed.

Lemma SendSMSCode_agrees (c : Context) (st : St) :
  SendSMSCode c st = handler.SendSMSCode c st.
Proof.
  unfold SendSMSCode, handler.SendSMSCode.
  destruct (GetQuery c "phone_number") as [phoneNumber ok].
  destruct (negb ok); [reflexivity|].
  destruct (negb (validatePhoneNumber phoneNumber)); [reflexivity|].
  cbn [Send SMSCodeInterface_of].
  destruct (handler.Send phoneNumber st) as [[[[code summary]|msg]|] st1]; reflexivity.
Qed.

End Agreement.

Section Handlers.
Context {St : Type} `{RoomInterface St} `{SMSCodeInterface St} `{RandSource St}.

(** ** CreateRoom *)

(** What [CreateRoom] does once an ID was generated for a valid request. *)
Lemma CreateRoom_stored_or_panics (h : RoomHandler) (c : Context) (st st1 : St)
    (args : CreateRoomArgs) (roomID : string) :
  Bind_CreateRoomArgs c = Some args →
  validateRoomName (RoomName args) = true →
  generateRoomID st = (Some roomID, st1) →
  match fst (Room_CreateRoom (room_built h c args roomID) st1) with
  | Some NilServerError =>
      events (CreateRoom h c st) = [EvRoomCreateRoom (room_built h c args roomID)] ∧
      outcome (CreateRoom h c st) ≠ Returned
  | _ =>
      ∃ status body,
        events (CreateRoom h c st) =
          [EvRoomCreateRoom (room_built h c args roomID); EvJSON status body] ∧
        In status [200; 409; 503; 500] ∧
        outcome (CreateRoom h c st) = Returned
  end.
Proof.
  intros Hbind Hvalid Hgen. unfold CreateRoom, room_built. rewrite Hbind, Hvalid, Hgen.
  cbn [negb].
  destruct (Room_CreateRoom _ st1) as [[[[serverErr|msg]|]|] st2]; cbn [fst].
  - destruct (Code serverErr); do 2 eexists;
      (split; [reflexivity|]); (split; [|reflexivity]); simpl; auto.
  - do 2 eexists. split; [reflexivity|]. split; [|reflexivity]. simpl. auto.
  - split; [reflexivity | discriminate].
  - do 2 eexists. split; [reflexivity|]. split; [|reflexivity]. simpl. auto.
Qed.

(** X3: with a random source that keeps its range, every run of
    [CreateRoom] ends in one of two ways: it returns having written
    exactly one response, with one of five statuses; or, and only when the
    store returned a nil pointer to [ServerError] as its error, it panics
    right after the call of the store with no response written.  A store
    that never returns that nil pointer is always answered once.  The
    store is called at most once. *)
Theorem CreateRoom_answers_once (h : RoomHandler) (c : Context) (st : St) :
  (∀ k s, (0 < k)%nat → (fst (Intn k s) < k)%nat) →
  ((outcome (CreateRoom h c st) = Returned ∧
    ∃ status, statuses (CreateRoom h c st) = [status] ∧
              In status [200; 400; 409; 503; 500]) ∨
   (outcome (CreateRoom h c st) ≠ Returned ∧
    statuses (CreateRoom h c st) = [] ∧
    ∃ args roomID st1,
      Bind_CreateRoomArgs c = Some args ∧
      generateRoomID st = (Some roomID, st1) ∧
      events (CreateRoom h c st) = [EvRoomCreateRoom (room_built h c args roomID)] ∧
      fst (Room_CreateRoom (room_built h c args roomID) st1) = Some NilServerError)) ∧
  ((∀ room s, fst (Room_CreateRoom room s) ≠ Some NilServerError) →
   outcome (CreateRoom h c st) = Returned ∧
   ∃ status, statuses (CreateRoom h c st) = [status] ∧
             In status [200; 400; 409; 503; 500]) ∧
  (length (List.filter (λ e, match e with EvRoomCreateRoom _ => true | _ => false end)
             (events (CreateRoom h c st))) ≤ 1)%nat.
Proof.
  intros Hlaw.
  assert (Hcases :
    (outcome (CreateRoom h c st) = Returned ∧
     (∃ status, statuses (CreateRoom h c st) = [status] ∧
                In status [200; 400; 409; 503; 500]) ∧
     (length (List.filter (λ e, match e with EvRoomCreateRoom _ => true | _ => false end)
                (events (CreateRoom h c st))) ≤ 1)%nat) ∨
    (outcome (CreateRoom h c st) ≠ Returned ∧
     statuses (CreateRoom h c st) = [] ∧
     ∃ args roomID st1,
       Bind_CreateRoomArgs c = Some args ∧
       generateRoomID st = (Some roomID, st1) ∧
       events (CreateRoom h c st) = [EvRoomCreateRoom (room_built h c args roomID)] ∧
       fst (Room_CreateRoom (room_built h c args roomID) st1) = Some NilServerError)).
  { destruct (Bind_CreateRoomArgs c) as [args|] eqn:Hbind.
    2: { left. unfold CreateRoom. rewrite Hbind. simpl.
         split; [reflexivity|]. split; [|lia]. exists 400. simpl. auto. }
    destruct (validateRoomName (RoomName args)) eqn:Hvalid.
    2: { left. unfold CreateRoom. rewrite Hbind, Hvalid. simpl.
         split; [reflexivity|]. split; [|lia]. exists 400. simpl. auto. }
    destruct (generateRoomID_total st Hlaw) as (roomID & st1 & Hgen).
    pose proof (CreateRoom_stored_or_panics h c st st1 args roomID Hbind Hvalid Hgen) as Hrun.
    destruct (fst (Room_CreateRoom (room_built h c args roomID) st1)) as [[e|]|] eqn:Hstore.
    - destruct Hrun as (status & body & Hev & Hst & Hout). left.
      unfold statuses. rewrite Hev. simpl. split; [exact Hout|]. split; [|lia].
      exists status. split; [reflexivity|]. simpl in *. intuition.
    - destruct Hrun as [Hev Hout]. right.
      unfold statuses. rewrite Hev. split; [exact Hout|]. split; [reflexivity|].
      exists args, roomID, st1. auto.
    - destruct Hrun as (status & body & Hev & Hst & Hout). left.
      unfold statuses. rewrite Hev. simpl. split; [exact Hout|]. split; [|lia].
      exists status. split; [reflexivity|]. simpl in *. intuition. }
  split; [|split].
  - destruct Hcases as [(Hout & Hst & _)|Hnil]; [left; auto | right; exact Hnil].
  - intros Hnever. destruct Hcases as [(Hout & Hst & _)|(_ & _ & Hnil)]; [auto|].
    destruct Hnil as (args & roomID & st1 & _ & _ & _ & Hstore).
    exfalso. exact (Hnever _ _ Hstore).
  - destruct Hcases as [(_ & _ & Hlen)|(_ & _ & Hnil)]; [exact Hlen|].
    destruct Hnil as (args & roomID & st1 & _ & _ & -> & _). simpl. lia.
Qed.

(** ** CloseRoom *)

(** What [CloseRoom] does with a request it could bind. *)
Lemma CloseRoom_bound (h : RoomHandler) (c : Context) (st : St) (args : CloseRoomArgs) :
  Bind_CloseRoomArgs c = Some args →
  match fst (Room_CloseRoom (GetString_UserID c) (RoomID args) st) with
  | None => statuses (CloseRoom h c st) = [] ∧ outcome (CloseRoom h c st) = Returned
  | Some NilServerError =>
      statuses (CloseRoom h c st) = [] ∧ outcome (CloseRoom h c st) ≠ Returned
  | Some (Held e) =>
      outcome (CloseRoom h c st) = Returned ∧
      statuses (CloseRoom h c st) =
        [match e with
         | IsServerError {| Code := ServerErrorRoomNotFound |} => 404
         | _ => 500
         end]
  end.
Proof.
  intros Hbind. unfold CloseRoom, statuses. rewrite Hbind.
  destruct (Room_CloseRoom (GetString_UserID c) (RoomID args) st)
    as [[[[[code summary]|msg]|]|] st1]; cbn [fst].
  - destruct code; split; reflexivity.
  - split; reflexivity.
  - split; [reflexivity | discriminate].
  - split; reflexivity.
Qed.

(** X4: [CloseRoom] returns without having written a response exactly when
    the body was bound and the store closed the room without error: a
    successful close is answered by silence.  When the body cannot be bound
    or the store fails with an error value, it returns having written
    exactly one response, 400, 404 or 500.  It panics, with nothing
    written, exactly when the store returned a nil pointer to
    [ServerError] as its error. *)
Theorem CloseRoom_answers (h : RoomHandler) (c : Context) (st : St) :
  (statuses (CloseRoom h c st) = [] ∧ outcome (CloseRoom h c st) = Returned ↔
   ∃ args, Bind_CloseRoomArgs c = Some args ∧
           fst (Room_CloseRoom (GetString_UserID c) (RoomID args) st) = None) ∧
  ((Bind_CloseRoomArgs c = None ∨
    ∃ args e, Bind_CloseRoomArgs c = Some args ∧
              fst (Room_CloseRoom (GetString_UserID c) (RoomID args) st) = Some (Held e)) →
   outcome (CloseRoom h c st) = Returned ∧
   ∃ status, statuses (CloseRoom h c st) = [status] ∧ In status [400; 404; 500]) ∧
  (outcome (CloseRoom h c st) ≠ Returned ↔
   ∃ args, Bind_CloseRoomArgs c = Some args ∧
           fst (Room_CloseRoom (GetString_UserID c) (RoomID args) st)
             = Some NilServerError) ∧
  (outcome (CloseRoom h c st) ≠ Returned → statuses (CloseRoom h c st) = []).
Proof.
  destruct (Bind_CloseRoomArgs c) as [args|] eqn:Hbind.
  2: { assert (Hrun : CloseRoom h c st =
                      mkRun st
                        [EvJSON http.StatusBadRequest
                           (BodyHTTPError (WithMessage "invalid args in request body"
                              (WithRequestID (ReqId c) (NewHTTPError BadRequest))))]
                        Returned).
       { unfold CloseRoom. rewrite Hbind. reflexivity. }
       rewrite Hrun. cbn [outcome]. split; [|split; [|split]].
       - split; [intros [Hst _]; discriminate Hst | intros (args & Hargs & _); discriminate Hargs].
       - intros _. split; [reflexivity|]. exists 400. split; [reflexivity | simpl; auto].
       - split; [intros Hne; contradiction | intros (args & Hargs & _); discriminate Hargs].
       - intros Hne. contradiction. }
  pose proof (CloseRoom_bound h c st args Hbind) as Hrun.
  destruct (fst (Room_CloseRoom (GetString_UserID c) (RoomID args) st)) as [[e|]|] eqn:Hstore.
  - destruct Hrun as [Hout Hst]. rewrite Hout, Hst. split; [|split; [|split]].
    + split; [intros [Hnil _]; discriminate Hnil|].
      intros (args' & [= <-] & Hnone). rewrite Hstore in Hnone. discriminate Hnone.
    + intros _. split; [reflexivity|]. eexists. split; [reflexivity|].
      destruct e as [[[] ?]|?]; simpl; auto.
    + split; [intros Hne; contradiction|].
      intros (args' & [= <-] & Hnil). rewrite Hstore in Hnil. discriminate Hnil.
    + intros Hne. contradiction.
  - destruct Hrun as [Hst Hout]. rewrite Hst. split; [|split; [|split]].
    + split; [intros [_ Hret]; contradiction|].
      intros (args' & [= <-] & Hnone). rewrite Hstore in Hnone. discriminate Hnone.
    + intros [Hnone|(args' & e & [= <-] & He)]; [discriminate Hnone|].
      rewrite Hstore in He. discriminate He.
    + split; [intros _; exists args; rewrite Hstore; auto | intros _; exact Hout].
    + intros _. reflexivity.
  - destruct Hrun as [Hst Hout]. rewrite Hst, Hout. split; [|split; [|split]].
    + split; [intros _; exists args; rewrite Hstore; auto | intros _; auto].
    + intros [Hnone|(args' & e & [= <-] & He)]; [discriminate Hnone|].
      rewrite Hstore in He. discriminate He.
    + split; [intros Hne; contradiction|].
      intros (args' & [= <-] & Hnil). rewrite Hstore in Hnil. discriminate Hnil.
    + intros Hne. contradiction.
Qed.

(** ** SendSMSCode *)




End Handlers.

Lemma NilStore_Intn_lt (k : nat) (w : NilStore) : (0 < k)%nat → (fst (Intn k w) < k)%nat.
Proof. intros Hk. exact Hk. Qed.

Lemma CreateRoom_answers_once_witness :
  outcome (CreateRoom world.the_handler world.alice_creates {| calls := 0 |}) ≠ Returned ∧
  statuses (CreateRoom world.the_handler world.alice_creates {| calls := 0 |}) = [] ∧
  outcome (CreateRoom world.the_handler world.alice_creates_taken world.bob_world) = Returned.
Proof.
  destruct (CreateRoom_answers_once world.the_handler world.alice_creates {| calls := 0 |}
              NilStore_Intn_lt) as ([[Hret _]|(Hpanic & Hnone & _)] & _ & _).
  - exfalso. vm_compute in Hret. discriminate Hret.
  - split; [exact Hpanic|]. split; [exact Hnone|].
    destruct (CreateRoom_answers_once world.the_handler world.alice_creates_taken
                world.bob_world World_Intn_lt) as (_ & Hvalue & _).
    apply Hvalue. intros room s.
    cbn [Room_CreateRoom RoomInterface_of].
    destruct (handler.Room_CreateRoom room s) as [[e|] s1]; discriminate.
Defined.


End TypedNilFacts.
